(** * The financial research agent pipeline: audit ledger, compliance
      policy, stage wrappers and orchestrator of [demo_agent_system.py]

    The Python module is embedded shallowly.  Text is a [string] whose
    characters are the code points U+0000..U+00FF; Python [int] is [Z];
    Python [float] is the primitive binary64 [float]; the shared, mutable
    [AuditTrail], the module logger and the wall clock live in one [World]
    that every method threads through a small state monad. *)

From Stdlib Require Import ZArith List String Ascii Bool Arith Lia.
From Stdlib Require Import PrimFloat SpecFloat FloatOps.
Import ListNotations.
Local Open Scope string_scope.

(** Decimal float literals denote the nearest binary64, as in Python. *)
Set Warnings "-inexact-float".

(* ================================================================== *)
(** ** Python [str] operations used by the module *)
(* ================================================================== *)

Module PyStr.

(** The character written [\n] in the Python source. *)
Definition nl : string := String (ascii_of_nat 10) EmptyString.

(** [c.lower()] for one character in U+0000..U+00FF: the letters A-Z
    and the Latin-1 capitals U+00C0..U+00DE (without the multiplication
    sign U+00D7) move up by 32; every other character is caseless or
    already lower case. *)
Definition lower_char (c : ascii) : ascii :=
  let n := nat_of_ascii c in
  if (((65 <=? n) && (n <=? 90))
      || ((192 <=? n) && (n <=? 222) && negb (n =? 215)))%nat
  then ascii_of_nat (n + 32)
  else c.

(** [s.lower()] *)
Fixpoint lower (s : string) : string :=
  match s with
  | EmptyString => EmptyString
  | String c rest => String (lower_char c) (lower rest)
  end.

(** [s.startswith(p)], the test made at each position by [p in s]. *)
Fixpoint startswith (p s : string) : bool :=
  match p, s with
  | EmptyString, _ => true
  | String _ _, EmptyString => false
  | String a p', String b s' => Ascii.eqb a b && startswith p' s'
  end.

(** [needle in hay]: the substring test of Python's [in] on [str]. *)
Fixpoint str_in (needle hay : string) : bool :=
  startswith needle hay
  || match hay with
     | EmptyString => false
     | String _ rest => str_in needle rest
     end.

(** [s[:n]] for [n >= 0] *)
Definition slice_to (n : nat) (s : string) : string := substring 0 n s.

(** [c.isspace()] for one character in U+0000..U+00FF. *)
Definition isspace (c : ascii) : bool :=
  let n := nat_of_ascii c in
  (((9 <=? n) && (n <=? 13)) || ((28 <=? n) && (n <=? 32))
   || (n =? 133) || (n =? 160))%nat.

(** [s.split()] with no separator: the maximal runs of non-space
    characters, in order.  [cur] is the run being read, if any. *)
Fixpoint split_from (cur : option string) (s : string) : list string :=
  match s with
  | EmptyString =>
      match cur with Some w => [w] | None => [] end
  | String c rest =>
      if isspace c then
        match cur with
        | Some w => w :: split_from None rest
        | None => split_from None rest
        end
      else
        match cur with
        | Some w => split_from (Some (w ++ String c EmptyString)) rest
        | None => split_from (Some (String c EmptyString)) rest
        end
  end.

Definition split (s : string) : list string := split_from None s.

(** [s * n] *)
Fixpoint repeat_str (s : string) (n : nat) : string :=
  match n with
  | O => EmptyString
  | S k => s ++ repeat_str s k
  end.

End PyStr.

(* ================================================================== *)
(** ** Python [float] operations used by the module *)
(* ================================================================== *)

Module PyFloat.

Local Open Scope Z_scope.

(** The integer [k >= 0] with sign [s] as an exact, unrounded binary
    value. *)
Definition sf_of_Z (s : bool) (k : Z) : spec_float :=
  match k with
  | Zpos p => S754_finite s p 0
  | _ => S754_zero s
  end.

(** [a / b] on two [int]s with [b > 0]: the binary64 nearest to the
    exact quotient.  Python raises [ZeroDivisionError] for [b = 0]; the
    one use in the module is guarded by [if self.actions], which the
    [positive] denominator records. *)
Definition int_truediv (a : Z) (b : positive) : float :=
  SF2Prim (SFdiv prec emax (sf_of_Z (a <? 0) (Z.abs a))
                           (S754_finite false b 0)).

(** The integer nearest to [n / d] for [n >= 0], [d > 0], ties to the
    even neighbour. *)
Definition div_half_even (n d : Z) : Z :=
  let q := n / d in
  let r := n mod d in
  match 2 * r ?= d with
  | Lt => q
  | Gt => q + 1
  | Eq => if Z.even q then q else q + 1
  end.

(** [round(x, ndigits)] on a [float] for [ndigits >= 0]: CPython prints
    the exact binary value of [x] to [ndigits] decimals, correctly
    rounded with ties to even, and reads the decimal back as the nearest
    binary64.  Zeros, infinities and NaN round to themselves. *)
Definition py_round (x : float) (ndigits : nat) : float :=
  match Prim2SF x with
  | S754_finite s m e =>
      let p := 10 ^ Z.of_nat ndigits in
      let k := match e with
               | Zneg sh => div_half_even (Zpos m * p) (2 ^ Zpos sh)
               | _ => Zpos m * p * 2 ^ e
               end in
      SF2Prim (SFdiv prec emax (sf_of_Z s k) (sf_of_Z false p))
  | _ => x
  end.

(** [sum] of floats taken left to right from [0.0], as repeated [+=]. *)
Definition fsum (l : list float) : float :=
  fold_left PrimFloat.add l 0%float.

End PyFloat.

(* ================================================================== *)
(** ** Data model *)
(* ================================================================== *)

(** [class AgentRole(Enum)], in definition order. *)
Inductive AgentRole : Type :=
| RESEARCHER
| ANALYST
| COMPLIANCE
| ORCHESTRATOR.

(** [role.value] *)
Definition value (role : AgentRole) : string :=
  match role with
  | RESEARCHER => "researcher"
  | ANALYST => "analyst"
  | COMPLIANCE => "compliance"
  | ORCHESTRATOR => "orchestrator"
  end.

(** [for role in AgentRole] *)
Definition AgentRole_members : list AgentRole :=
  [RESEARCHER; ANALYST; COMPLIANCE; ORCHESTRATOR].

(** The values that the module stores in a [Dict[str, Any]]. *)
Inductive PyValue : Type :=
| PyNone
| PyBool (b : bool)
| PyStr (s : string).

(** A [dict] with [str] keys, in insertion order. *)
Definition PyDict : Type := list (string * PyValue).

Definition py_optional_str (o : option string) : PyValue :=
  match o with
  | Some s => PyStr s
  | None => PyNone
  end.

(** [@dataclass class AgentAction].  [agent_role] is a [str], as in the
    source, not an [AgentRole]. *)
Record AgentAction : Type := {
  timestamp : string;
  agent_role : string;
  action_type : string;
  input_data : PyDict;
  output_data : PyDict;
  tokens_used : Z;
  cost_usd : float;
  success : bool;
  error_message : option string
}.

(** The attributes of [class AuditTrail]. *)
Record AuditTrail : Type := {
  actions : list AgentAction;
  total_cost : float;
  total_tokens : Z
}.

(** An [int] or a [float], for a [dict] entry that can hold either. *)
Inductive PyNumber : Type :=
| PyInt (z : Z)
| PyFloat (f : float).

(** The [dict] returned by [AuditTrail.get_summary], one field per key. *)
Module Summary.
Record t : Type := {
  total_actions : nat;
  total_cost_usd : float;
  total_tokens : Z;
  actions_by_agent : list (string * nat);
  success_rate : PyNumber
}.
End Summary.

(** The [dict] returned by [ComplianceAgent.review_output]. *)
Record ReviewResult : Type := {
  compliant : bool;
  risk_message : option string;
  final_content : option string
}.

(** The two shapes of [dict] returned by
    [AgentOrchestrator.research_investment]: ["success": False] with
    [error] and [audit_summary], or ["success": True] with the report. *)
Inductive WorkflowResult : Type :=
| Failure (error : string) (audit_summary : Summary.t)
| Success (company_name research_summary analysis : string)
          (final_output : option string) (audit_summary : Summary.t).

(** What a call into a collaborator does: it returns, or it raises an
    [Exception] [e], kept as [str(e)]. *)
Inductive Outcome (A : Type) : Type :=
| Returned (a : A)
| Raised (e : string).
Arguments Returned {A} a.
Arguments Raised {A} e.

(* ================================================================== *)
(** ** The world the methods run in, and its state monad *)
(* ================================================================== *)

(** The two levels the module logs at; both pass the [INFO] threshold
    set by [logging.basicConfig]. *)
Inductive LogLevel : Type :=
| INFO
| ERROR.

(** [audit_trail] is the one [AuditTrail] object that the orchestrator
    creates and that its three agents hold a reference to; [log_records]
    is what [logger] has emitted so far; [clock n] is the ISO text of the
    [n]-th reading of [datetime.now()], and [clock_reads] counts the
    readings made. *)
Record World : Type := {
  audit_trail : AuditTrail;
  log_records : list (LogLevel * string);
  clock : nat -> string;
  clock_reads : nat
}.

Definition M (A : Type) : Type := World -> A * World.

Definition ret {A : Type} (a : A) : M A := fun w => (a, w).

Definition bind {A B : Type} (c : M A) (k : A -> M B) : M B :=
  fun w => let r := c w in k (fst r) (snd r).

Declare Scope py_scope.
Delimit Scope py_scope with py.
Notation "x <- c ;; k" := (bind c (fun x => k))
  (at level 61, c at next level, right associativity) : py_scope.
Notation "c ;; k" := (bind c (fun _ => k))
  (at level 61, right associativity) : py_scope.
Local Open Scope py_scope.

(** The result and the final world of a run. *)
Definition result_of {A : Type} (c : M A) (w : World) : A := fst (c w).
Definition world_after {A : Type} (c : M A) (w : World) : World := snd (c w).

(** [logger.info(msg)] and [logger.error(msg)] *)
Definition logger_emit (level : LogLevel) (msg : string) : M unit :=
  fun w => (tt, {| audit_trail := audit_trail w;
                   log_records := log_records w ++ [(level, msg)];
                   clock := clock w;
                   clock_reads := clock_reads w |}).

Definition logger_info : string -> M unit := logger_emit INFO.
Definition logger_error : string -> M unit := logger_emit ERROR.

(** [datetime.now().isoformat()]; [datetime.now()] alone is the same
    reading with its text unused. *)
Definition datetime_now : M string :=
  fun w => (clock w (clock_reads w),
            {| audit_trail := audit_trail w;
               log_records := log_records w;
               clock := clock w;
               clock_reads := S (clock_reads w) |}).

Definition get_audit_trail : M AuditTrail := fun w => (audit_trail w, w).

Definition set_audit_trail (t : AuditTrail) : M unit :=
  fun w => (tt, {| audit_trail := t;
                   log_records := log_records w;
                   clock := clock w;
                   clock_reads := clock_reads w |}).

(* ================================================================== *)
(** ** [class AuditTrail] *)
(* ================================================================== *)

(** [AuditTrail.__init__] *)
Definition AuditTrail_init : AuditTrail :=
  {| actions := []; total_cost := 0%float; total_tokens := 0%Z |}.

(** [AuditTrail.log_action] *)
Definition log_action (action : AgentAction) : M unit :=
  self <- get_audit_trail ;;
  set_audit_trail
    {| actions := actions self ++ [action];
       total_cost := (total_cost self + cost_usd action)%float;
       total_tokens := (total_tokens self + tokens_used action)%Z |} ;;
  logger_info ("Agent action logged: " ++ agent_role action
               ++ " - " ++ action_type action).

(** [len([a for a in self.actions if a.agent_role == role.value])] *)
Definition count_role (self : AuditTrail) (role : AgentRole) : nat :=
  List.length
    (filter (fun a => String.eqb (agent_role a) (value role)) (actions self)).

(** [AuditTrail.get_summary] *)
Definition get_summary (self : AuditTrail) : Summary.t :=
  {| Summary.total_actions := List.length (actions self);
     Summary.total_cost_usd := PyFloat.py_round (total_cost self) 4;
     Summary.total_tokens := total_tokens self;
     Summary.actions_by_agent :=
       map (fun role => (value role, count_role self role))
           AgentRole_members;
     Summary.success_rate :=
       match actions self with
       | [] => PyInt 0
       | _ :: others =>
           PyFloat
             (PyFloat.py_round
                (PyFloat.int_truediv
                   (Z.of_nat (List.length (filter success (actions self))))
                   (Pos.of_succ_nat (List.length others))
                 * 100)%float
                2)
       end |}.

(** [self.audit_trail.get_summary()] read from the shared ledger. *)
Definition audit_summary_now : M Summary.t :=
  self <- get_audit_trail ;;
  ret (get_summary self).

(* ================================================================== *)
(** ** [class ComplianceCheck] *)
(* ================================================================== *)

Definition RESTRICTED_KEYWORDS : list string :=
  ["insider trading"; "market manipulation"; "money laundering";
   "guaranteed returns"; "risk-free investment"].

(** The [for keyword in ...] loop of [validate_output]: [Some] of the
    value returned from inside the loop, [None] when the loop runs out. *)
Fixpoint scan_keywords (keywords : list string) (output_lower : string)
  : option (bool * option string) :=
  match keywords with
  | [] => None
  | keyword :: rest =>
      if PyStr.str_in keyword output_lower
      then Some (false,
                 Some ("Output contains restricted keyword: '"
                       ++ keyword ++ "'"))
      else scan_keywords rest output_lower
  end.

(** [ComplianceCheck.validate_output] *)
Definition validate_output (output : string) : bool * option string :=
  let output_lower := PyStr.lower output in
  match scan_keywords RESTRICTED_KEYWORDS output_lower with
  | Some returned => returned
  | None =>
      let advice_indicators :=
        ["you should"; "i recommend"; "best investment"] in
      let has_advice :=
        existsb (fun ind => PyStr.str_in ind output_lower)
                advice_indicators in
      let has_disclaimer :=
        PyStr.str_in "not financial advice" output_lower
        || PyStr.str_in "for informational purposes" output_lower in
      if has_advice && negb has_disclaimer
      then (false,
            Some "Output appears to provide financial advice without disclaimer")
      else (true, None)
  end.

Definition disclaimer : string :=
  PyStr.nl ++ PyStr.nl ++ "--- DISCLAIMER ---" ++ PyStr.nl
  ++ "This information is for educational and informational purposes only. It does not constitute financial advice. Please consult with a qualified financial professional before making investment decisions.".

(** [ComplianceCheck.add_disclaimers] *)
Definition add_disclaimers (output : string) : string :=
  output ++ disclaimer.

(** The two static methods as [ComplianceAgent.review_output] reaches
    them: a call returns or raises. *)
Record CompliancePolicy : Type := {
  policy_validate_output : string -> Outcome (bool * option string);
  policy_add_disclaimers : string -> Outcome string
}.

(** The class of the source; neither method raises on a [str]. *)
Definition ComplianceCheck : CompliancePolicy :=
  {| policy_validate_output := fun output => Returned (validate_output output);
     policy_add_disclaimers := fun output => Returned (add_disclaimers output) |}.


(* ================================================================== *)
(** ** [class MockLLM] and the collaborator it stands for *)
(* ================================================================== *)

(** The text of a triple-quoted literal whose lines are [ls]: every line
    is followed by a newline. *)
Fixpoint text_of_lines (ls : list string) : string :=
  match ls with
  | [] => EmptyString
  | l :: rest => l ++ PyStr.nl ++ text_of_lines rest
  end.

(** What an agent holds in [self.llm]: the two generation methods, each
    of which returns text or raises. *)
Record LLM : Type := {
  generate_research : string -> Outcome string;
  generate_analysis : string -> string -> Outcome string
}.

(** The f-string of [MockLLM.generate_research]; the literal opens with
    a newline. *)
Definition mock_research_text (company_name : string) : string :=
  text_of_lines
    [EmptyString;
     "COMPANY RESEARCH: " ++ company_name;
     EmptyString;
     "Company Overview:";
     company_name ++ " is a leading company in its sector with significant market presence. The company has demonstrated consistent performance over recent quarters.";
     EmptyString;
     "Recent Financial Performance:";
     "- Revenue growth of 15% year-over-year";
     "- Strong profit margins maintained at industry-leading levels";
     "- Successful expansion into new markets";
     "- Positive cash flow generation";
     EmptyString;
     "Recent Developments:";
     "- Launched new product line in Q4";
     "- Announced strategic partnership with major industry player";
     "- Expanded operations to three new regions";
     "- Received positive analyst ratings from major investment firms";
     EmptyString;
     "Market Position:";
     company_name ++ " maintains a competitive position with strong brand recognition and customer loyalty. The company's market share has been growing steadily, supported by innovation and operational excellence."].

(** The f-string of [MockLLM.generate_analysis]; [research] is unused,
    as in the source. *)
Definition mock_analysis_text (company_name research : string) : string :=
  text_of_lines
    [EmptyString;
     "INVESTMENT ANALYSIS: " ++ company_name;
     EmptyString;
     "Key Strengths:";
     "1. Strong Market Position: Leading player with established brand and customer base";
     "2. Revenue Growth: Consistent double-digit growth trajectory";
     "3. Financial Health: Strong balance sheet with healthy cash reserves";
     "4. Innovation Pipeline: Continued investment in R&D and new products";
     EmptyString;
     "Key Risks:";
     "1. Market Competition: Intensifying competition from new entrants";
     "2. Economic Sensitivity: Performance tied to broader economic conditions";
     "3. Regulatory Environment: Potential regulatory changes could impact operations";
     "4. Operational Complexity: Scale brings increased complexity in management";
     EmptyString;
     "Market Opportunities:";
     "- Expansion into emerging markets";
     "- Digital transformation initiatives";
     "- Strategic acquisitions in adjacent markets";
     "- Product line extensions";
     EmptyString;
     "Threats:";
     "- Disruptive technologies from competitors";
     "- Economic downturn risks";
     "- Supply chain vulnerabilities";
     "- Changing consumer preferences";
     EmptyString;
     "Investment Considerations:";
     "Based on the available information, " ++ company_name ++ " demonstrates several positive indicators including strong financial performance, market leadership, and growth trajectory. However, investors should carefully consider the identified risks and conduct thorough due diligence. Diversification remains important, and this analysis should be one input among many in investment decision-making.";
     EmptyString;
     "Note: This analysis is based on publicly available information and should not be the sole basis for investment decisions."].

Definition MockLLM : LLM :=
  {| generate_research := fun company_name =>
       Returned (mock_research_text company_name);
     generate_analysis := fun company_name research =>
       Returned (mock_analysis_text company_name research) |}.

(* ================================================================== *)
(** ** The three agents *)
(* ================================================================== *)

(** An agent's [self.audit_trail] is the ledger of the [World]; what is
    left of each object is its [llm] attribute. *)
Record ResearchAgent : Type := { researcher_llm : LLM }.
Record AnalysisAgent : Type := { analyst_llm : LLM }.
Inductive ComplianceAgent : Type := ComplianceAgent_init.

(** [ResearchAgent.research_company] *)
Definition research_company (self : ResearchAgent) (company_name : string)
  : M string :=
  _ <- datetime_now ;;
  logger_info ("Research Agent: Gathering information on "
               ++ company_name ++ "...") ;;
  match generate_research (researcher_llm self) company_name with
  | Returned output =>
      now <- datetime_now ;;
      log_action
        {| timestamp := now;
           agent_role := value RESEARCHER;
           action_type := "company_research";
           input_data := [("company_name", PyStr company_name)];
           output_data :=
             [("summary", PyStr (PyStr.slice_to 200 output ++ "..."))];
           tokens_used := Z.of_nat (List.length (PyStr.split output));
           cost_usd := 0.002%float;
           success := true;
           error_message := None |} ;;
      ret output
  | Raised e =>
      logger_error ("Research agent error: " ++ e) ;;
      now <- datetime_now ;;
      log_action
        {| timestamp := now;
           agent_role := value RESEARCHER;
           action_type := "company_research";
           input_data := [("company_name", PyStr company_name)];
           output_data := [];
           tokens_used := 0%Z;
           cost_usd := 0.0%float;
           success := false;
           error_message := Some e |} ;;
      ret ("Error during research: " ++ e)
  end.

(** [AnalysisAgent.analyze_investment_potential] *)
Definition analyze_investment_potential (self : AnalysisAgent)
    (research_summary company_name : string) : M string :=
  logger_info ("Analysis Agent: Evaluating investment potential for "
               ++ company_name ++ "...") ;;
  match generate_analysis (analyst_llm self) company_name research_summary with
  | Returned output =>
      now <- datetime_now ;;
      log_action
        {| timestamp := now;
           agent_role := value ANALYST;
           action_type := "investment_analysis";
           input_data := [("company_name", PyStr company_name)];
           output_data :=
             [("analysis", PyStr (PyStr.slice_to 200 output ++ "..."))];
           tokens_used := Z.of_nat (List.length (PyStr.split output));
           cost_usd := 0.003%float;
           success := true;
           error_message := None |} ;;
      ret output
  | Raised e =>
      logger_error ("Analysis agent error: " ++ e) ;;
      now <- datetime_now ;;
      log_action
        {| timestamp := now;
           agent_role := value ANALYST;
           action_type := "investment_analysis";
           input_data := [("company_name", PyStr company_name)];
           output_data := [];
           tokens_used := 0%Z;
           cost_usd := 0.0%float;
           success := false;
           error_message := Some e |} ;;
      ret ("Error during analysis: " ++ e)
  end.

(** The [except Exception as e] block of [review_output]. *)
Definition review_output_except (content_type e : string) : M ReviewResult :=
  logger_error ("Compliance agent error: " ++ e) ;;
  now <- datetime_now ;;
  log_action
    {| timestamp := now;
       agent_role := value COMPLIANCE;
       action_type := "compliance_review";
       input_data := [("content_type", PyStr content_type)];
       output_data := [];
       tokens_used := 0%Z;
       cost_usd := 0.0%float;
       success := false;
       error_message := Some e |} ;;
  ret {| compliant := false;
         risk_message := Some ("Compliance check error: " ++ e);
         final_content := None |}.

(** The end of the [try] block of [review_output], from [# Log action]. *)
Definition review_output_log (content_type : string) (is_compliant : bool)
    (risk_message' : option string) (result : ReviewResult) : M ReviewResult :=
  now <- datetime_now ;;
  log_action
    {| timestamp := now;
       agent_role := value COMPLIANCE;
       action_type := "compliance_review";
       input_data := [("content_type", PyStr content_type)];
       output_data := [("compliant", PyBool is_compliant);
                       ("risk_message", py_optional_str risk_message')];
       tokens_used := 0%Z;
       cost_usd := 0.0%float;
       success := true;
       error_message := None |} ;;
  ret result.

(** [ComplianceAgent.review_output], with the class that the name
    [ComplianceCheck] resolves to as a parameter, so that the [except]
    block has a way to be reached. *)
Definition review_output_with (check : CompliancePolicy)
    (content content_type : string) : M ReviewResult :=
  logger_info ("Compliance Agent: Reviewing " ++ content_type
               ++ " for regulatory compliance...") ;;
  match policy_validate_output check content with
  | Raised e => review_output_except content_type e
  | Returned (is_compliant, risk_message') =>
      if is_compliant then
        match policy_add_disclaimers check content with
        | Raised e => review_output_except content_type e
        | Returned final_content' =>
            review_output_log content_type is_compliant risk_message'
              {| compliant := true;
                 risk_message := None;
                 final_content := Some final_content' |}
        end
      else
        review_output_log content_type is_compliant risk_message'
          {| compliant := false;
             risk_message := risk_message';
             final_content := None |}
  end.

(** [ComplianceAgent.review_output] as the module defines it. *)
Definition review_output (self : ComplianceAgent)
    (content content_type : string) : M ReviewResult :=
  review_output_with ComplianceCheck content content_type.

(* ================================================================== *)
(** ** [class AgentOrchestrator] *)
(* ================================================================== *)

Record AgentOrchestrator : Type := {
  researcher : ResearchAgent;
  analyst : AnalysisAgent;
  compliance : ComplianceAgent
}.

(** [AgentOrchestrator.__init__] with the [llm] that each generating
    agent ends up holding: a new, empty ledger shared by three new
    agents. *)
Definition AgentOrchestrator_with (research_llm analysis_llm : LLM)
  : M AgentOrchestrator :=
  set_audit_trail AuditTrail_init ;;
  ret {| researcher := {| researcher_llm := research_llm |};
         analyst := {| analyst_llm := analysis_llm |};
         compliance := ComplianceAgent_init |}.

(** [AgentOrchestrator.__init__] as written: both agents get [MockLLM()]. *)
Definition AgentOrchestrator_init : M AgentOrchestrator :=
  AgentOrchestrator_with MockLLM MockLLM.

(** [str(x)] inside an f-string for an [Optional[str]]. *)
Definition format_optional_str (o : option string) : string :=
  match o with
  | Some s => s
  | None => "None"
  end.

(** The log lines of [research_investment] before step 1 runs. *)
Definition log_workflow_start (company_name : string) : M unit :=
  logger_info (PyStr.nl ++ PyStr.repeat_str "=" 60) ;;
  logger_info ("Starting investment research workflow for: " ++ company_name) ;;
  logger_info (PyStr.repeat_str "=" 60 ++ PyStr.nl) ;;
  logger_info "STEP 1: Research Agent - Gathering Information" ;;
  logger_info (PyStr.repeat_str "-" 60).

(** The [return] of a failed run: the error and the ledger's summary at
    that moment. *)
Definition return_failure (error : string) : M WorkflowResult :=
  audit_summary <- audit_summary_now ;;
  ret (Failure error audit_summary).

(** [AgentOrchestrator.research_investment]; a character of a log
    literal outside U+0000..U+00FF is kept as its UTF-8 bytes. *)
Definition research_investment (self : AgentOrchestrator)
    (company_name : string) : M WorkflowResult :=
  log_workflow_start company_name ;;
  research_summary <- research_company (researcher self) company_name ;;
  if PyStr.str_in "Error" research_summary then
    return_failure research_summary
  else
    logger_info (PyStr.nl
                 ++ "STEP 2: Analysis Agent - Evaluating Investment Potential") ;;
    logger_info (PyStr.repeat_str "-" 60) ;;
    analysis_result <-
      analyze_investment_potential (analyst self) research_summary
                                   company_name ;;
    if PyStr.str_in "Error" analysis_result then
      return_failure analysis_result
    else
      logger_info (PyStr.nl ++ "STEP 3: Compliance Agent - Reviewing Output") ;;
      logger_info (PyStr.repeat_str "-" 60) ;;
      compliance_result <-
        review_output (compliance self)
          (research_summary ++ PyStr.nl ++ PyStr.nl ++ analysis_result)
          "investment_research" ;;
      if negb (compliant compliance_result) then
        return_failure ("Compliance check failed: "
                        ++ format_optional_str (risk_message compliance_result))
      else
        logger_info (PyStr.nl ++ PyStr.repeat_str "=" 60) ;;
        logger_info "‚úÖ WORKFLOW COMPLETED SUCCESSFULLY" ;;
        logger_info (PyStr.repeat_str "=" 60 ++ PyStr.nl) ;;
        audit_summary <- audit_summary_now ;;
        ret (Success company_name research_summary analysis_result
                     (final_content compliance_result) audit_summary).

(* ================================================================== *)
(** ** The compliance policy as the specification words it *)
(* ================================================================== *)

(** The tagged outcome of the specification's [validate]. *)
Inductive PolicyOutcome : Type :=
| Compliant
| NonCompliant (reason : string).

(** The pair that [validate_output] returns for an outcome. *)
Definition pair_of_outcome (o : PolicyOutcome) : bool * option string :=
  match o with
  | Compliant => (true, None)
  | NonCompliant reason => (false, Some reason)
  end.

(** [validate] after the specification: lower-case the text; the first
    restricted phrase of the table that occurs decides; otherwise advice
    without a disclaimer decides; otherwise the text is compliant. *)
Definition validate_spec (text : string) : PolicyOutcome :=
  let lowered := PyStr.lower text in
  let occurs := fun phrase => PyStr.str_in phrase lowered in
  match find occurs RESTRICTED_KEYWORDS with
  | Some phrase =>
      NonCompliant ("Output contains restricted keyword: '" ++ phrase ++ "'")
  | None =>
      if existsb occurs ["you should"; "i recommend"; "best investment"]
         && negb (existsb occurs ["not financial advice";
                                  "for informational purposes"])
      then NonCompliant
             "Output appears to provide financial advice without disclaimer"
      else Compliant
  end.

(** [phrase] occurs in [text] in some letter case: a stretch of [text]
    lower-cases to [phrase]. *)
Definition occurs_any_case (phrase text : string) : Prop :=
  exists before stretch after,
    text = before ++ stretch ++ after /\ PyStr.lower stretch = phrase.

(** The reason that cites [keyword]. *)
Definition restricted_reason (keyword : string) : string :=
  "Output contains restricted keyword: '" ++ keyword ++ "'".

(* ================================================================== *)
(** ** Runs that the properties speak about *)
(* ================================================================== *)

(** One [log_action] call per element of [calls], in order. *)
Fixpoint log_actions (calls : list AgentAction) : M unit :=
  match calls with
  | [] => ret tt
  | action :: rest => log_action action ;; log_actions rest
  end.

(** The ledger after [AuditTrail()] followed by the calls of [calls]. *)
Definition ledger_after (calls : list AgentAction) (w : World) : AuditTrail :=
  audit_trail (world_after (set_audit_trail AuditTrail_init ;;
                            log_actions calls) w).

(** The exact sum of a list of [int]s. *)
Definition int_sum (l : list Z) : Z := fold_right Z.add 0%Z l.

(** Whether a role string is the value of a member of [AgentRole]. *)
Definition known_role (role : string) : bool :=
  existsb (fun r => String.eqb role (value r)) AgentRole_members.

(** The number of actions with [success] set. *)
Definition count_success (l : list AgentAction) : nat :=
  List.length (filter success l).

(** A world in which nothing has happened yet. *)
Definition quiet_world : World :=
  {| audit_trail := AuditTrail_init;
     log_records := [];
     clock := fun _ => "2024-01-01T09:00:00";
     clock_reads := 0 |}.

(** An action whose role string is none of the four role values. *)
Definition stray_action : AgentAction :=
  {| timestamp := "2024-01-01T09:00:00";
     agent_role := "auditor";
     action_type := "manual_review";
     input_data := [];
     output_data := [];
     tokens_used := 0%Z;
     cost_usd := 0.0%float;
     success := true;
     error_message := None |}.

(** A generator that returns fixed texts, and one that always raises. *)
Definition canned_llm (research analysis : string) : LLM :=
  {| generate_research := fun _ => Returned research;
     generate_analysis := fun _ _ => Returned analysis |}.

Definition failing_llm (e : string) : LLM :=
  {| generate_research := fun _ => Raised e;
     generate_analysis := fun _ _ => Raised e |}.

(** One run on a new orchestrator whose agents hold the given [llm]s. *)
Definition run_workflow (research_llm analysis_llm : LLM)
    (company_name : string) : M WorkflowResult :=
  self <- AgentOrchestrator_with research_llm analysis_llm ;;
  research_investment self company_name.

(** The same run cut off after the research stage has returned. *)
Definition run_research_only (research_llm analysis_llm : LLM)
    (company_name : string) : M string :=
  self <- AgentOrchestrator_with research_llm analysis_llm ;;
  log_workflow_start company_name ;;
  research_company (researcher self) company_name.

(** The text that the compliance stage is given. *)
Definition combined_text (research_summary analysis_result : string) : string :=
  research_summary ++ PyStr.nl ++ PyStr.nl ++ analysis_result.

(** [after] has the ledger of [before] with [action] appended. *)
Definition appends_one (before after : World) (action : AgentAction) : Prop :=
  actions (audit_trail after)
  = (actions (audit_trail before) ++ [action])%list.

(** The shape of the action recorded when a stage's collaborator raised
    [e]. *)
Definition failure_record (role : AgentRole) (e : string)
    (action : AgentAction) : Prop :=
  agent_role action = value role
  /\ success action = false
  /\ output_data action = []
  /\ tokens_used action = 0%Z
  /\ cost_usd action = 0.0%float
  /\ error_message action = Some e.

(** Sample texts. *)
Definition capitals_text : string :=
  "Insider trading offers GUARANTEED RETURNS".

Definition tainted_research : string :=
  "Insider trading aside, this is a risk-free investment".

Definition tagged_research : string :=
  "Error margins are small: this is a risk-free investment".

Definition risk_free_research : string :=
  "Analysts agree that this is a risk-free investment".

Definition plain_analysis : string := "Steady growth is expected".

(* ================================================================== *)
(** ** Vocabulary of the further properties *)
(* ================================================================== *)

(** The local list [advice_indicators] of [validate_output], and the
    two phrases that its [has_disclaimer] looks for. *)
Definition advice_indicators : list string :=
  ["you should"; "i recommend"; "best investment"].

Definition disclaimer_phrases : list string :=
  ["not financial advice"; "for informational purposes"].

(** The second message of [validate_output]. *)
Definition advice_reason : string :=
  "Output appears to provide financial advice without disclaimer".

(** Some phrase of [phrases] occurs in [text] in some letter case. *)
Definition mentions (phrases : list string) (text : string) : Prop :=
  exists phrase, In phrase phrases /\ occurs_any_case phrase text.

(** Whether the character [c] is one of the characters of [s]. *)
Fixpoint char_in (c : ascii) (s : string) : bool :=
  match s with
  | EmptyString => false
  | String x rest => Ascii.eqb c x || char_in c rest
  end.

(** The aggregates of a ledger are what its list of actions adds up to. *)
Definition ledger_consistent (ledger : AuditTrail) : Prop :=
  total_cost ledger = PyFloat.fsum (map cost_usd (actions ledger))
  /\ total_tokens ledger = int_sum (map tokens_used (actions ledger)).

(** [result["audit_summary"]] *)
Definition audit_summary_of (result : WorkflowResult) : Summary.t :=
  match result with
  | Failure _ summary => summary
  | Success _ _ _ _ summary => summary
  end.

(** [result["success"]] *)
Definition succeeded (result : WorkflowResult) : bool :=
  match result with
  | Failure _ _ => false
  | Success _ _ _ _ _ => true
  end.

(** The role strings of the three stages, in the order they run. *)
Definition stage_roles : list string :=
  [value RESEARCHER; value ANALYST; value COMPLIANCE].

(** [research_investment] on the orchestrator that [__init__] builds. *)
Definition default_run (company_name : string) : M WorkflowResult :=
  self <- AgentOrchestrator_init ;;
  research_investment self company_name.

(* ================================================================== *)
(** ** Raises that [except Exception] does not catch *)
(* ================================================================== *)

(** What a call into a collaborator does when every kind of raise is
    counted: it completes as an [Outcome] (it returns, or it raises an
    [Exception]), or it raises something that is no [Exception], such as
    [KeyboardInterrupt] or [SystemExit], kept as the name of its class. *)
Inductive Call (A : Type) : Type :=
| Completes (outcome : Outcome A)
| Escapes (exc : string).
Arguments Completes {A} outcome.
Arguments Escapes {A} exc.

(** [ResearchAgent.research_company] over such calls.  The clause
    [except Exception as e] does not catch the second kind of raise: it
    leaves the method, [inr], after the clock reading and the log line
    that come before the call, and nothing more is logged or recorded. *)
Definition research_company_call (generate : string -> Call string)
    (company_name : string) : World -> (string + string) * World :=
  fun w =>
    let before :=
      (_ <- datetime_now ;;
       logger_info ("Research Agent: Gathering information on "
                    ++ company_name ++ "...")) in
    match generate company_name with
    | Completes (Returned output) =>
        let body :=
          (before ;;
           now <- datetime_now ;;
           log_action
             {| timestamp := now;
                agent_role := value RESEARCHER;
                action_type := "company_research";
                input_data := [("company_name", PyStr company_name)];
                output_data :=
                  [("summary", PyStr (PyStr.slice_to 200 output ++ "..."))];
                tokens_used := Z.of_nat (List.length (PyStr.split output));
                cost_usd := 0.002%float;
                success := true;
                error_message := None |} ;;
           ret output) in
        (inl (result_of body w), world_after body w)
    | Completes (Raised e) =>
        let body :=
          (before ;;
           logger_error ("Research agent error: " ++ e) ;;
           now <- datetime_now ;;
           log_action
             {| timestamp := now;
                agent_role := value RESEARCHER;
                action_type := "company_research";
                input_data := [("company_name", PyStr company_name)];
                output_data := [];
                tokens_used := 0%Z;
                cost_usd := 0.0%float;
                success := false;
                error_message := Some e |} ;;
           ret ("Error during research: " ++ e)) in
        (inl (result_of body w), world_after body w)
    | Escapes exc => (inr exc, world_after before w)
    end.


(* ================================================================== *)
(** * Properties *)
(* ================================================================== *)

(** ** The float model on known values of Python's [round] and [/] *)

Example py_round_ties_on_binary_value :
  PyFloat.py_round 2.675%float 2 = 2.67%float
  /\ PyFloat.py_round 0.125%float 2 = 0.12%float
  /\ PyFloat.py_round 0.375%float 2 = 0.38%float
  /\ PyFloat.py_round 1.005%float 2 = 1.0%float
  /\ PyFloat.py_round (0.002 + 0.003)%float 4 = 0.005%float.
Proof. vm_compute. repeat split. Qed.

Example success_rate_two_of_three :
  PyFloat.py_round (PyFloat.int_truediv 2 3 * 100)%float 2 = 66.67%float.
Proof. vm_compute. reflexivity. Qed.

(** ** Strings *)

Section StringFacts.

Lemma append_assoc (a b c : string) : (a ++ b) ++ c = a ++ (b ++ c).
Proof. induction a as [|x a IH]; simpl; [reflexivity | now rewrite IH]. Qed.

Lemma append_nil_r (a : string) : a ++ EmptyString = a.
Proof. induction a as [|x a IH]; simpl; [reflexivity | now rewrite IH]. Qed.

Lemma lower_append (a b : string) :
  PyStr.lower (a ++ b) = PyStr.lower a ++ PyStr.lower b.
Proof. induction a as [|x a IH]; simpl; [reflexivity | now rewrite IH]. Qed.

Lemma startswith_append (p rest : string) :
  PyStr.startswith p (p ++ rest) = true.
Proof.
  induction p as [|x p IH]; simpl; [reflexivity|].
  now rewrite Ascii.eqb_refl, IH.
Qed.

Lemma startswith_inv (p s : string) :
  PyStr.startswith p s = true -> exists rest, s = p ++ rest.
Proof.
  revert s. induction p as [|x p IH]; intros s H.
  - now exists s.
  - destruct s as [|y s]; simpl in H; [discriminate|].
    apply andb_true_iff in H. destruct H as [Hxy Hp].
    apply Ascii.eqb_eq in Hxy. subst y.
    destruct (IH s Hp) as [rest ->]. now exists rest.
Qed.

Lemma str_in_here (needle rest : string) :
  PyStr.str_in needle (needle ++ rest) = true.
Proof.
  destruct needle as [|x n]; [now destruct rest|].
  change (PyStr.startswith (String x n) (String x n ++ rest)
          || PyStr.str_in (String x n) (n ++ rest) = true).
  now rewrite startswith_append.
Qed.

(** [needle in hay] holds for every way of cutting [needle] out of
    [hay] ... *)
Lemma str_in_intro (needle before after : string) :
  PyStr.str_in needle (before ++ needle ++ after) = true.
Proof.
  induction before as [|x b IH].
  - cbn [append]. apply str_in_here.
  - cbn [append PyStr.str_in]. rewrite IH. apply orb_true_r.
Qed.

(** ... and only then. *)
Lemma str_in_inv (needle hay : string) :
  PyStr.str_in needle hay = true ->
  exists before after, hay = before ++ needle ++ after.
Proof.
  induction hay as [|x h IH]; simpl; intros H.
  - apply orb_true_iff in H. destruct H as [H|H]; [|discriminate].
    apply startswith_inv in H. destruct H as [rest ->].
    now exists EmptyString, rest.
  - apply orb_true_iff in H. destruct H as [H|H].
    + apply startswith_inv in H. destruct H as [rest ->].
      now exists EmptyString, rest.
    + destruct (IH H) as (b & a & ->). now exists (String x b), a.
Qed.

Lemma str_in_iff (needle hay : string) :
  PyStr.str_in needle hay = true <->
  exists before after, hay = before ++ needle ++ after.
Proof.
  split; [apply str_in_inv|].
  intros (b & a & ->). apply str_in_intro.
Qed.

(** A phrase that occurs in some letter case is found in the lower-cased
    text. *)
Lemma occurs_any_case_lower (phrase text : string) :
  occurs_any_case phrase text ->
  PyStr.str_in phrase (PyStr.lower text) = true.
Proof.
  intros (b & s & a & -> & <-).
  rewrite !lower_append. apply str_in_intro.
Qed.

(** A phrase that is its own lower case and occurs literally occurs in
    some letter case. *)
Lemma literal_occurs_any_case (phrase text : string) :
  PyStr.lower phrase = phrase ->
  PyStr.str_in phrase text = true ->
  occurs_any_case phrase text.
Proof.
  intros Hl H. apply str_in_inv in H. destruct H as (b & a & ->).
  now exists b, phrase, a.
Qed.

End StringFacts.

(** ** The compliance policy *)

Section Compliance.

Lemma scan_keywords_find (keywords : list string) (lowered : string) :
  scan_keywords keywords lowered =
  match find (fun phrase => PyStr.str_in phrase lowered) keywords with
  | Some phrase => Some (false, Some (restricted_reason phrase))
  | None => None
  end.
Proof.
  induction keywords as [|k ks IH]; simpl; [reflexivity|].
  destruct (PyStr.str_in k lowered); [reflexivity | exact IH].
Qed.

(** The loop cites the first keyword of the table that occurs: every
    keyword before it is absent. *)
Lemma scan_keywords_first (before : list string) (k : string)
      (after : list string) (lowered : string) :
  Forall (fun k' => PyStr.str_in k' lowered = false) before ->
  PyStr.str_in k lowered = true ->
  scan_keywords (before ++ k :: after)%list lowered
  = Some (false, Some (restricted_reason k)).
Proof.
  intros Hb Hk. induction Hb as [|k' ks Hk' _ IH]; simpl.
  - now rewrite Hk.
  - now rewrite Hk'.
Qed.

Lemma validate_output_first (before : list string) (k : string)
      (after : list string) (output : string) :
  RESTRICTED_KEYWORDS = (before ++ k :: after)%list ->
  Forall (fun k' => PyStr.str_in k' (PyStr.lower output) = false) before ->
  PyStr.str_in k (PyStr.lower output) = true ->
  validate_output output = (false, Some (restricted_reason k)).
Proof.
  intros Ht Hb Hk. unfold validate_output. rewrite Ht.
  now rewrite (scan_keywords_first _ _ _ _ Hb Hk).
Qed.

(** Once some keyword of the table occurs, the verdict is a rejection
    that cites a keyword at or before it. *)
Lemma scan_keywords_some (keywords : list string) (k lowered : string) :
  In k keywords ->
  PyStr.str_in k lowered = true ->
  exists before k' after,
    keywords = (before ++ k' :: after)%list
    /\ Forall (fun x => PyStr.str_in x lowered = false) before
    /\ PyStr.str_in k' lowered = true
    /\ (In k before -> False).
Proof.
  induction keywords as [|x ks IH]; intros Hin Hk; [destruct Hin|].
  destruct (PyStr.str_in x lowered) eqn:Hx.
  - exists [], x, ks. repeat split; auto.
  - destruct Hin as [->|Hin]; [congruence|].
    destruct (IH Hin Hk) as (b & k' & a & -> & Hb & Hk' & Hnot).
    exists (x :: b), k', a. repeat split; auto.
    intros [->|H]; [congruence | auto].
Qed.

End Compliance.

(** C5: [validate_output] is the specification's [validate]: it works on
    the lower-cased text, rejects with the first restricted phrase of
    the table that occurs in it, otherwise rejects advice that comes
    without a disclaimer with the fixed message, and otherwise accepts. *)
Theorem validate_output_refines_spec (text : string) :
  validate_output text = pair_of_outcome (validate_spec text).
Proof.
  unfold validate_output, validate_spec.
  rewrite scan_keywords_find.
  destruct (find _ RESTRICTED_KEYWORDS) as [phrase|]; [reflexivity|].
  cbv zeta.
  change (existsb (fun ind => PyStr.str_in ind (PyStr.lower text))
                  ["not financial advice"; "for informational purposes"])
    with (PyStr.str_in "not financial advice" (PyStr.lower text)
          || (PyStr.str_in "for informational purposes" (PyStr.lower text)
              || false)).
  rewrite orb_false_r.
  destruct (existsb _ _ && negb _); reflexivity.
Qed.

(** C6, as stated, fails: a text that contains the phrase in capitals
    and an earlier phrase of the table is rejected with a reason that
    names the earlier phrase only. *)
Lemma guaranteed_returns_not_always_cited :
  occurs_any_case "guaranteed returns" capitals_text
  /\ ~ (exists reason,
          validate_output capitals_text = (false, Some reason)
          /\ PyStr.str_in "guaranteed returns" reason = true).
Proof.
  split.
  - exists "Insider trading offers ", "GUARANTEED RETURNS", EmptyString.
    split; reflexivity.
  - intros (reason & Hv & Hr).
    vm_compute in Hv. inversion Hv; subst reason.
    vm_compute in Hr. discriminate.
Qed.

(** C6, amended: a text that contains "guaranteed returns" in any letter
    case is always rejected, and the reason cites the first phrase of
    the table that occurs in the lower-cased text: every phrase listed
    before the one cited is absent.  The phrase cited is therefore one
    of the first four, and it is "guaranteed returns" whenever none of
    the three phrases before it occurs. *)
Theorem guaranteed_returns_rejected (text : string) :
  occurs_any_case "guaranteed returns" text ->
  exists keyword,
    validate_output text = (false, Some (restricted_reason keyword))
    /\ In keyword (firstn 4 RESTRICTED_KEYWORDS)
    /\ (Forall (fun k => PyStr.str_in k (PyStr.lower text) = false)
               (firstn 3 RESTRICTED_KEYWORDS) ->
        keyword = "guaranteed returns")
    /\ PyStr.str_in keyword (PyStr.lower text) = true
    /\ exists earlier later,
        RESTRICTED_KEYWORDS = (earlier ++ keyword :: later)%list
        /\ Forall (fun k => PyStr.str_in k (PyStr.lower text) = false)
                  earlier.
Proof.
  intros Hocc. apply occurs_any_case_lower in Hocc.
  destruct (scan_keywords_some RESTRICTED_KEYWORDS "guaranteed returns"
              (PyStr.lower text)) as (b & k & a & Ht & Hb & Hk & Hnot);
    [simpl; tauto | exact Hocc |].
  exists k. split; [exact (validate_output_first b k a text Ht Hb Hk)|].
  assert (Hshape :
            In k (firstn 4 RESTRICTED_KEYWORDS)
            /\ (Forall (fun k => PyStr.str_in k (PyStr.lower text) = false)
                       (firstn 3 RESTRICTED_KEYWORDS) ->
                k = "guaranteed returns")).
  { unfold RESTRICTED_KEYWORDS in Ht.
    destruct b as [|b1 [|b2 [|b3 [|b4 b]]]]; simpl in Ht; inversion Ht; subst;
      simpl in Hnot; try (exfalso; tauto).
    - split; [simpl; tauto|]. intros HF. inversion HF; congruence.
    - split; [simpl; tauto|]. intros HF.
      inversion HF as [|? ? _ HF2]; subst. inversion HF2; congruence.
    - split; [simpl; tauto|]. intros HF.
      inversion HF as [|? ? _ HF2]; subst.
      inversion HF2 as [|? ? _ HF3]; subst. inversion HF3; congruence.
    - split; [simpl; tauto | reflexivity]. }
  destruct Hshape as [Hin Himp].
  split; [exact Hin|]. split; [exact Himp|]. split; [exact Hk|].
  now exists b, a.
Qed.

Lemma guaranteed_returns_rejected_witness :
  occurs_any_case "guaranteed returns" "Enjoy Guaranteed Returns today"
  /\ exists keyword,
       validate_output "Enjoy Guaranteed Returns today"
       = (false, Some (restricted_reason keyword))
       /\ In keyword (firstn 4 RESTRICTED_KEYWORDS)
       /\ (Forall (fun k => PyStr.str_in k
                              (PyStr.lower "Enjoy Guaranteed Returns today")
                            = false)
                  (firstn 3 RESTRICTED_KEYWORDS) ->
           keyword = "guaranteed returns")
       /\ PyStr.str_in keyword (PyStr.lower "Enjoy Guaranteed Returns today")
          = true
       /\ exists earlier later,
           RESTRICTED_KEYWORDS = (earlier ++ keyword :: later)%list
           /\ Forall (fun k =>
                        PyStr.str_in k
                          (PyStr.lower "Enjoy Guaranteed Returns today")
                        = false)
                     earlier.
Proof.
  assert (H : occurs_any_case "guaranteed returns"
                              "Enjoy Guaranteed Returns today").
  { exists "Enjoy ", "Guaranteed Returns", " today". split; reflexivity. }
  split; [exact H|].
  exact (guaranteed_returns_rejected "Enjoy Guaranteed Returns today" H).
Defined.

(** ** The audit ledger *)

Section Ledger.

Lemma world_after_bind {A B : Type} (c : M A) (k : A -> M B) (w : World) :
  world_after (bind c k) w = world_after (k (result_of c w)) (world_after c w).
Proof. reflexivity. Qed.

Lemma result_of_bind {A B : Type} (c : M A) (k : A -> M B) (w : World) :
  result_of (bind c k) w = result_of (k (result_of c w)) (world_after c w).
Proof. reflexivity. Qed.

(** One call appends the action and adds its cost and tokens. *)
Lemma log_action_ledger (action : AgentAction) (w : World) :
  audit_trail (world_after (log_action action) w)
  = {| actions := actions (audit_trail w) ++ [action];
       total_cost := (total_cost (audit_trail w) + cost_usd action)%float;
       total_tokens := (total_tokens (audit_trail w) + tokens_used action)%Z |}.
Proof. reflexivity. Qed.

(** The ledger after any sequence of calls, from any ledger. *)
Lemma log_actions_ledger (calls : list AgentAction) (w : World) :
  audit_trail (world_after (log_actions calls) w)
  = {| actions := actions (audit_trail w) ++ calls;
       total_cost :=
         fold_left PrimFloat.add (map cost_usd calls)
                   (total_cost (audit_trail w));
       total_tokens :=
         (total_tokens (audit_trail w) + int_sum (map tokens_used calls))%Z |}.
Proof.
  revert w. induction calls as [|a calls IH]; intros w.
  - cbn. destruct (audit_trail w) as [acts cost toks]. cbn.
    now rewrite app_nil_r, Z.add_0_r.
  - cbn [log_actions]. rewrite world_after_bind, IH, log_action_ledger.
    cbn. now rewrite <- app_assoc, Z.add_assoc.
Qed.

Lemma ledger_after_eq (calls : list AgentAction) (w : World) :
  ledger_after calls w
  = {| actions := calls;
       total_cost := PyFloat.fsum (map cost_usd calls);
       total_tokens := int_sum (map tokens_used calls) |}.
Proof.
  unfold ledger_after. rewrite world_after_bind, log_actions_ledger.
  reflexivity.
Qed.

(** An action is counted under at most one role, and under one exactly
    when its role string is a role value. *)
Lemma count_role_cons (a : AgentAction) (acts : list AgentAction)
      (cost : float) (toks : Z) (role : AgentRole) :
  count_role {| actions := a :: acts; total_cost := cost;
                total_tokens := toks |} role
  = (if String.eqb (agent_role a) (value role) then 1 else 0)
    + count_role {| actions := acts; total_cost := cost;
                    total_tokens := toks |} role.
Proof.
  unfold count_role. cbn [actions filter].
  destruct (String.eqb (agent_role a) (value role)); reflexivity.
Qed.

Lemma role_indicator_sum (role : string) :
  list_sum (map (fun r => if String.eqb role (value r) then 1 else 0)
                AgentRole_members)
  = if known_role role then 1 else 0.
Proof.
  unfold known_role, list_sum.
  cbn [AgentRole_members map fold_right existsb value].
  destruct (String.eqb_spec role "researcher") as [->|_]; [reflexivity|].
  destruct (String.eqb_spec role "analyst") as [->|_]; [reflexivity|].
  destruct (String.eqb_spec role "compliance") as [->|_]; [reflexivity|].
  destruct (String.eqb_spec role "orchestrator") as [->|_]; reflexivity.
Qed.

Lemma role_counts_sum (acts : list AgentAction) (cost : float) (toks : Z) :
  list_sum (map (fun role =>
                   count_role {| actions := acts; total_cost := cost;
                                 total_tokens := toks |} role)
                AgentRole_members)
  = List.length (filter (fun a => known_role (agent_role a)) acts).
Proof.
  induction acts as [|a acts IH]; [reflexivity|].
  pose proof (role_indicator_sum (agent_role a)) as Hone.
  cbn [AgentRole_members map] in *.
  unfold list_sum in *. cbn [fold_right] in *.
  rewrite !count_role_cons. cbn [filter].
  destruct (known_role (agent_role a)); cbn [List.length]; lia.
Qed.

(** The count under a role is the number of recorded role strings equal
    to the value of the role. *)
Lemma count_role_count_occ (ledger : AuditTrail) (role : AgentRole) :
  count_role ledger role
  = count_occ string_dec (map agent_role (actions ledger)) (value role).
Proof.
  unfold count_role.
  induction (actions ledger) as [|a l IH]; cbn; [reflexivity|].
  destruct (String.eqb_spec (agent_role a) (value role)) as [E|E];
    destruct (string_dec (agent_role a) (value role)) as [D|D];
    try contradiction; cbn; now rewrite IH.
Qed.

Lemma filter_all_length {A : Type} (f : A -> bool) (l : list A) :
  List.length (filter f l) = List.length l <-> Forall (fun x => f x = true) l.
Proof.
  induction l as [|x l IH]; cbn; [split; auto|].
  destruct (f x) eqn:E; cbn.
  - split.
    + intros H. constructor; [exact E|]. apply IH. lia.
    + intros H. inversion H; subst. f_equal. now apply IH.
  - split.
    + intros H. pose proof (filter_length_le f l). lia.
    + intros H. inversion H; congruence.
Qed.

End Ledger.

(** C2: after any sequence of [log_action] calls on a new ledger, the
    summary's [total_actions] is the number of calls, [total_cost_usd]
    is the binary64 sum of the recorded costs in recording order rounded
    to 4 decimals, and [total_tokens] is the exact sum of the recorded
    token counts. *)
Theorem summary_totals (calls : list AgentAction) (w : World) :
  let summary := get_summary (ledger_after calls w) in
  Summary.total_actions summary = List.length calls
  /\ Summary.total_cost_usd summary
     = PyFloat.py_round (PyFloat.fsum (map cost_usd calls)) 4
  /\ Summary.total_tokens summary = int_sum (map tokens_used calls).
Proof.
  cbv zeta. rewrite ledger_after_eq. cbn. auto.
Qed.

(** C3: in every ledger state, [success_rate] is the integer 0 when no
    action is recorded, and otherwise the quotient of the number of
    successful actions by the number of actions, times 100, rounded to
    2 decimals, all in binary64. *)
Theorem summary_success_rate (ledger : AuditTrail) :
  Summary.success_rate (get_summary ledger)
  = if Nat.eqb (List.length (actions ledger)) 0
    then PyInt 0
    else PyFloat
           (PyFloat.py_round
              (PyFloat.int_truediv
                 (Z.of_nat (count_success (actions ledger)))
                 (Pos.of_nat (List.length (actions ledger)))
               * 100)%float
              2).
Proof.
  unfold get_summary, count_success. cbn [Summary.success_rate].
  destruct (actions ledger) as [|a others] eqn:E; [reflexivity|].
  cbn [List.length Nat.eqb]. now rewrite Pos.of_nat_succ.
Qed.

(** C4, as stated, fails: [agent_role] is a free string, and an action
    recorded under a string that is no role value is counted in
    [total_actions] and under no role. *)
Lemma role_counts_miss_stray_action :
  list_sum (map snd (Summary.actions_by_agent
                       (get_summary (ledger_after [stray_action] quiet_world))))
  <> Summary.total_actions
       (get_summary (ledger_after [stray_action] quiet_world)).
Proof. vm_compute. discriminate. Qed.

(** C4, amended: after any sequence of [log_action] calls on a new
    ledger, [actions_by_agent] has exactly the four role values as keys,
    in enum order; the count under each key is the number of recorded
    actions whose [agent_role] is that role value, a natural number that
    is 0 when no recorded action has that role; the four counts sum to
    the number of recorded actions whose [agent_role] is a role value;
    and that sum is [total_actions] exactly when every recorded action
    carries a role value. *)
Theorem summary_role_counts (calls : list AgentAction) (w : World) :
  let summary := get_summary (ledger_after calls w) in
  map fst (Summary.actions_by_agent summary)
  = ["researcher"; "analyst"; "compliance"; "orchestrator"]
  /\ Forall (fun entry => 0 <= snd entry) (Summary.actions_by_agent summary)
  /\ Summary.actions_by_agent summary
     = map (fun role =>
              (value role,
               count_occ string_dec (map agent_role calls) (value role)))
           AgentRole_members
  /\ (forall role,
         ~ In (value role) (map agent_role calls) ->
         In (value role, 0) (Summary.actions_by_agent summary))
  /\ list_sum (map snd (Summary.actions_by_agent summary))
     = List.length (filter (fun a => known_role (agent_role a)) calls)
  /\ (list_sum (map snd (Summary.actions_by_agent summary))
      = Summary.total_actions summary
      <-> Forall (fun a => known_role (agent_role a) = true) calls).
Proof.
  cbv zeta. rewrite ledger_after_eq.
  unfold get_summary. cbn [Summary.actions_by_agent Summary.total_actions actions].
  assert (Hpinned :
            map (fun role =>
                   (value role,
                    count_role
                      {| actions := calls;
                         total_cost := PyFloat.fsum (map cost_usd calls);
                         total_tokens := int_sum (map tokens_used calls) |}
                      role))
                AgentRole_members
            = map (fun role =>
                     (value role,
                      count_occ string_dec (map agent_role calls)
                                (value role)))
                  AgentRole_members).
  { apply map_ext. intros role. now rewrite count_role_count_occ. }
  split; [rewrite map_map; reflexivity|]. split.
  { apply Forall_forall. intros entry _. apply Nat.le_0_l. }
  split; [exact Hpinned|]. split.
  { intros role Hnot. rewrite Hpinned. apply in_map_iff. exists role.
    split; [|destruct role; cbn; tauto].
    f_equal. now apply count_occ_not_In. }
  rewrite !map_map. cbn [fst snd].
  rewrite (role_counts_sum calls).
  split; [reflexivity | apply filter_all_length].
Qed.

Lemma summary_role_counts_witness :
  ~ In (value ANALYST) (map agent_role [stray_action])
  /\ In (value ANALYST, 0)
        (Summary.actions_by_agent
           (get_summary (ledger_after [stray_action] quiet_world))).
Proof.
  assert (H : ~ In (value ANALYST) (map agent_role [stray_action])).
  { cbn. intros [E|[]]. discriminate E. }
  split; [exact H|].
  exact (proj1 (proj2 (proj2 (proj2
           (summary_role_counts [stray_action] quiet_world)))) ANALYST H).
Defined.

(** ** The stage wrappers *)

Section Stages.




(** The in-band failure texts carry the tag that the orchestrator looks
    for. *)
Lemma research_error_tagged (e : string) :
  PyStr.str_in "Error" ("Error during research: " ++ e) = true.
Proof. reflexivity. Qed.


End Stages.

(** The research stage on a call that completes is [research_company]
    on its outcome. *)
Lemma research_company_call_completes (self : ResearchAgent)
      (generate : string -> Call string) (company_name : string) (w : World) :
  generate company_name
  = Completes (generate_research (researcher_llm self) company_name) ->
  research_company_call generate company_name w
  = (inl (result_of (research_company self company_name) w),
     world_after (research_company self company_name) w).
Proof.
  intros H. unfold research_company_call, research_company. rewrite H.
  destruct (generate_research (researcher_llm self) company_name);
    reflexivity.
Qed.



(** ** The orchestrator *)

Section Orchestrator.

Variables research_llm analysis_llm : LLM.
Variable company_name : string.

(** The research stage returns the same text in every world. *)
Lemma research_company_result (w w' : World) :
  result_of (research_company {| researcher_llm := research_llm |}
                              company_name) w
  = result_of (research_company {| researcher_llm := research_llm |}
                                company_name) w'.
Proof.
  unfold research_company, result_of, bind. cbn.
  destruct (generate_research research_llm company_name); reflexivity.
Qed.

Lemma analyze_investment_potential_result (research_summary : string)
      (w w' : World) :
  result_of (analyze_investment_potential {| analyst_llm := analysis_llm |}
               research_summary company_name) w
  = result_of (analyze_investment_potential {| analyst_llm := analysis_llm |}
                 research_summary company_name) w'.
Proof.
  unfold analyze_investment_potential, result_of, bind. cbn.
  destruct (generate_analysis analysis_llm company_name research_summary);
    reflexivity.
Qed.

(** A run whose research text is tagged stops there: it returns that
    text as the error with the summary of the ledger as the research
    stage left it, and does nothing more to the world. *)
Lemma run_workflow_research_tagged (w : World) :
  PyStr.str_in "Error"
    (result_of (run_research_only research_llm analysis_llm company_name) w)
  = true ->
  run_workflow research_llm analysis_llm company_name w
  = (Failure
       (result_of (run_research_only research_llm analysis_llm company_name) w)
       (get_summary
          (audit_trail
             (world_after
                (run_research_only research_llm analysis_llm company_name) w))),
     world_after (run_research_only research_llm analysis_llm company_name) w).
Proof.
  unfold run_workflow, run_research_only, research_investment.
  unfold bind, result_of, world_after. cbn [fst snd].
  intros H. rewrite H. reflexivity.
Qed.

(** The ledger after the research stage of a run on a new orchestrator
    holds one action, the researcher's. *)
Lemma run_research_only_ledger (w : World) :
  exists action,
    actions (audit_trail
               (world_after
                  (run_research_only research_llm analysis_llm company_name) w))
    = [action]
    /\ agent_role action = value RESEARCHER
    /\ success action
       = match generate_research research_llm company_name with
         | Returned _ => true
         | Raised _ => false
         end.
Proof.
  unfold run_research_only, research_company, world_after, bind. cbn.
  destruct (generate_research research_llm company_name);
    eexists; cbn; repeat split; reflexivity.
Qed.

#[local] Arguments validate_output : simpl never.
#[local] Arguments add_disclaimers : simpl never.
#[local] Arguments get_summary : simpl never.
#[local] Arguments PyStr.split : simpl never.
#[local] Arguments PyStr.slice_to : simpl never.
#[local] Arguments PyStr.repeat_str : simpl never.

(** A run whose research text is untagged and whose analysis text is
    tagged stops after the analysis stage with that text as the error;
    the ledger then holds the researcher's action and the analyst's. *)
Lemma run_workflow_analysis_tagged (r : string) (w : World) :
  generate_research research_llm company_name = Returned r ->
  PyStr.str_in "Error" r = false ->
  PyStr.str_in "Error"
    (result_of (analyze_investment_potential {| analyst_llm := analysis_llm |}
                  r company_name) w) = true ->
  let run := run_workflow research_llm analysis_llm company_name in
  result_of run w
  = Failure
      (result_of (analyze_investment_potential {| analyst_llm := analysis_llm |}
                    r company_name) w)
      (get_summary (audit_trail (world_after run w)))
  /\ exists a1 a2,
      actions (audit_trail (world_after run w)) = [a1; a2]
      /\ success a1 = true
      /\ success a2
         = match generate_analysis analysis_llm company_name r with
           | Returned _ => true
           | Raised _ => false
           end.
Proof.
  intros Hr Hclean. cbv zeta.
  unfold run_workflow, research_investment, research_company,
    analyze_investment_potential, return_failure, audit_summary_now.
  unfold bind, result_of, world_after. cbn.
  rewrite Hr. cbn. rewrite Hclean. cbn.
  destruct (generate_analysis analysis_llm company_name r) as [a|e]; cbn;
    intros Htag; try rewrite Htag; cbn;
    (split; [reflexivity | do 2 eexists; repeat split; reflexivity]).
Qed.

(** A run whose two texts are generated and untagged reaches the
    compliance review, which decides the result; the ledger then holds
    three actions, all recorded as successful. *)
Lemma run_workflow_reviewed (r a : string) (w : World) :
  generate_research research_llm company_name = Returned r ->
  PyStr.str_in "Error" r = false ->
  generate_analysis analysis_llm company_name r = Returned a ->
  PyStr.str_in "Error" a = false ->
  let run := run_workflow research_llm analysis_llm company_name in
  let summary := get_summary (audit_trail (world_after run w)) in
  result_of run w
  = match validate_output (combined_text r a) with
    | (true, _) =>
        Success company_name r a
                (Some (add_disclaimers (combined_text r a))) summary
    | (false, message) =>
        Failure ("Compliance check failed: " ++ format_optional_str message)
                summary
    end
  /\ exists a1 a2 a3,
      actions (audit_trail (world_after run w)) = [a1; a2; a3]
      /\ map agent_role [a1; a2; a3]
         = [value RESEARCHER; value ANALYST; value COMPLIANCE]
      /\ map success [a1; a2; a3] = [true; true; true].
Proof.
  intros Hr Hrclean Ha Haclean. cbv zeta.
  unfold run_workflow, research_investment, research_company,
    analyze_investment_potential, review_output, review_output_with,
    review_output_log, return_failure, audit_summary_now, combined_text.
  unfold bind, result_of, world_after. cbn.
  rewrite Hr. cbn. rewrite Hrclean. cbn.
  rewrite Ha. cbn. rewrite Haclean. cbn.
  match goal with
  | |- context [validate_output ?text] =>
      destruct (validate_output text) as [[|] message]
  end; cbn;
    (split; [reflexivity | do 3 eexists; repeat split; reflexivity]).
Qed.

End Orchestrator.

Section OrchestratorFacts.

Lemma run_research_only_result (research_llm analysis_llm : LLM)
      (company_name : string) (w : World) :
  result_of (run_research_only research_llm analysis_llm company_name) w
  = match generate_research research_llm company_name with
    | Returned output => output
    | Raised e => "Error during research: " ++ e
    end.
Proof.
  unfold run_research_only, research_company, result_of, bind. cbn.
  destruct (generate_research research_llm company_name); reflexivity.
Qed.

Lemma analyze_investment_potential_returned (analysis_llm : LLM)
      (research_summary company_name : string) (w : World) :
  result_of (analyze_investment_potential {| analyst_llm := analysis_llm |}
               research_summary company_name) w
  = match generate_analysis analysis_llm company_name research_summary with
    | Returned output => output
    | Raised e => "Error during analysis: " ++ e
    end.
Proof.
  unfold analyze_investment_potential, result_of, bind. cbn.
  destruct (generate_analysis analysis_llm company_name research_summary);
    reflexivity.
Qed.

(** Three recorded successes out of three give a rate of 100.0. *)
Lemma success_rate_three_of_three (ledger : AuditTrail)
      (a1 a2 a3 : AgentAction) :
  actions ledger = [a1; a2; a3] ->
  map success [a1; a2; a3] = [true; true; true] ->
  Summary.success_rate (get_summary ledger) = PyFloat 100%float.
Proof.
  intros E H. injection H as H1 H2 H3.
  unfold get_summary. cbn [Summary.success_rate]. rewrite E.
  cbn [filter]. rewrite H1, H2, H3. vm_compute. reflexivity.
Qed.

(** The literal of scenario B brings the restricted phrase into the
    lower-cased text. *)
Lemma risk_free_literal_lowered (text : string) :
  PyStr.str_in "this is a risk-free investment" text = true ->
  PyStr.str_in "risk-free investment" (PyStr.lower text) = true.
Proof.
  intros H. apply str_in_inv in H. destruct H as (b & a & ->).
  rewrite !lower_append.
  change (PyStr.lower "this is a risk-free investment")
    with ("this is a " ++ "risk-free investment").
  rewrite (append_assoc "this is a "), <- (append_assoc (PyStr.lower b)).
  apply str_in_intro.
Qed.

End OrchestratorFacts.

(** C1: in every run on a new orchestrator in which the research stage
    returns a text tagged as a failure, [research_investment] returns
    the failure payload with that text as the error and the summary of
    the ledger at that point; the ledger holds exactly one action, the
    researcher's; and the run leaves the world as the research stage
    left it, so neither the analysis stage nor the compliance stage,
    each of which would record an action, has been entered. *)
Theorem research_failure_halts_run (research_llm analysis_llm : LLM)
        (company_name : string) (w : World) :
  let stage := run_research_only research_llm analysis_llm company_name in
  let run := run_workflow research_llm analysis_llm company_name in
  let ledger := audit_trail (world_after run w) in
  PyStr.str_in "Error" (result_of stage w) = true ->
  result_of run w = Failure (result_of stage w) (get_summary ledger)
  /\ List.length (actions ledger) = 1
  /\ Summary.total_actions (get_summary ledger) = 1
  /\ world_after run w = world_after stage w
  /\ Forall (fun a => agent_role a = value RESEARCHER) (actions ledger).
Proof.
  cbv zeta. intros Htag.
  pose proof (run_workflow_research_tagged research_llm analysis_llm
                company_name w Htag) as Hrun.
  assert (Hworld :
            world_after (run_workflow research_llm analysis_llm company_name) w
            = world_after
                (run_research_only research_llm analysis_llm company_name) w).
  { unfold world_after at 1. now rewrite Hrun. }
  assert (Hresult :
            result_of (run_workflow research_llm analysis_llm company_name) w
            = Failure
                (result_of
                   (run_research_only research_llm analysis_llm company_name) w)
                (get_summary
                   (audit_trail
                      (world_after
                         (run_research_only research_llm analysis_llm
                                            company_name) w)))).
  { unfold result_of at 1. now rewrite Hrun. }
  rewrite Hworld, Hresult.
  destruct (run_research_only_ledger research_llm analysis_llm company_name w)
    as (action & Hacts & Hrole & _).
  unfold get_summary. cbn [Summary.total_actions]. rewrite Hacts.
  repeat split. constructor; [exact Hrole | constructor].
Qed.

Lemma research_failure_halts_run_witness :
  PyStr.str_in "Error"
    (result_of (run_research_only (failing_llm "service unavailable") MockLLM
                                  "Acme Corp") quiet_world) = true
  /\ List.length
       (actions (audit_trail
                   (world_after
                      (run_workflow (failing_llm "service unavailable") MockLLM
                                    "Acme Corp") quiet_world))) = 1.
Proof.
  split; [reflexivity|].
  exact (proj1 (proj2 (research_failure_halts_run
                         (failing_llm "service unavailable") MockLLM
                         "Acme Corp" quiet_world eq_refl))).
Defined.

(** C9: whatever text the research stage returns, if it contains
    "Error" the run fails with that text as the error; the same holds
    for the text of the analysis stage once the research text passed.
    This is so even when the generator returned the text and the stage
    recorded its action with [success = True]; hence there are
    generator outputs, returned without any failure, on which the run
    fails. *)
Theorem error_substring_fails_run :
  (forall (research_llm analysis_llm : LLM) (company_name : string)
          (w : World),
      let research_text :=
        result_of (run_research_only research_llm analysis_llm company_name)
                  w in
      let analysis_text :=
        result_of (analyze_investment_potential
                     {| analyst_llm := analysis_llm |}
                     research_text company_name) w in
      let run := run_workflow research_llm analysis_llm company_name in
      let ledger := audit_trail (world_after run w) in
      (PyStr.str_in "Error" research_text = true ->
       result_of run w = Failure research_text (get_summary ledger))
      /\ (PyStr.str_in "Error" research_text = false ->
          PyStr.str_in "Error" analysis_text = true ->
          result_of run w = Failure analysis_text (get_summary ledger))
      /\ (forall output,
             generate_research research_llm company_name = Returned output ->
             PyStr.str_in "Error" output = true ->
             result_of run w = Failure output (get_summary ledger)
             /\ map success (actions ledger) = [true])
      /\ (forall r output,
             generate_research research_llm company_name = Returned r ->
             PyStr.str_in "Error" r = false ->
             generate_analysis analysis_llm company_name r = Returned output ->
             PyStr.str_in "Error" output = true ->
             result_of run w = Failure output (get_summary ledger)
             /\ map success (actions ledger) = [true; true]))
  /\ (exists (research_llm analysis_llm : LLM) (company_name : string)
             (w : World) (output : string) (summary : Summary.t),
         generate_research research_llm company_name = Returned output
         /\ result_of (run_workflow research_llm analysis_llm company_name) w
            = Failure output summary).
Proof.
  split.
  - intros research_llm analysis_llm company_name w. cbv zeta.
    assert (Hfirst :
              PyStr.str_in "Error"
                (result_of (run_research_only research_llm analysis_llm
                                              company_name) w) = true ->
              result_of (run_workflow research_llm analysis_llm company_name) w
              = Failure
                  (result_of (run_research_only research_llm analysis_llm
                                                company_name) w)
                  (get_summary
                     (audit_trail
                        (world_after
                           (run_workflow research_llm analysis_llm
                                         company_name) w)))
              /\ world_after (run_workflow research_llm analysis_llm
                                          company_name) w
                 = world_after (run_research_only research_llm analysis_llm
                                                  company_name) w).
    { intros Htag.
      pose proof (run_workflow_research_tagged research_llm analysis_llm
                    company_name w Htag) as Hrun.
      assert (Hworld :
                world_after (run_workflow research_llm analysis_llm
                                          company_name) w
                = world_after (run_research_only research_llm analysis_llm
                                                 company_name) w).
      { unfold world_after at 1. now rewrite Hrun. }
      split; [|exact Hworld].
      rewrite Hworld. unfold result_of at 1. now rewrite Hrun. }
    assert (Hsecond :
              forall r,
                generate_research research_llm company_name = Returned r ->
                PyStr.str_in "Error" r = false ->
                PyStr.str_in "Error"
                  (result_of (analyze_investment_potential
                                {| analyst_llm := analysis_llm |}
                                r company_name) w) = true ->
                result_of (run_workflow research_llm analysis_llm
                                        company_name) w
                = Failure
                    (result_of (analyze_investment_potential
                                  {| analyst_llm := analysis_llm |}
                                  r company_name) w)
                    (get_summary
                       (audit_trail
                          (world_after
                             (run_workflow research_llm analysis_llm
                                           company_name) w)))
                /\ (forall output,
                       generate_analysis analysis_llm company_name r
                       = Returned output ->
                       map success
                         (actions
                            (audit_trail
                               (world_after
                                  (run_workflow research_llm analysis_llm
                                                company_name) w)))
                       = [true; true])).
    { intros r Hr Hclean Htag.
      destruct (run_workflow_analysis_tagged research_llm analysis_llm
                  company_name r w Hr Hclean Htag)
        as (Hres & a1 & a2 & Hacts & H1 & H2).
      split; [exact Hres|].
      intros output Hout. rewrite Hacts. cbn [map].
      rewrite H1, H2, Hout. reflexivity. }
    split; [intros Htag; exact (proj1 (Hfirst Htag))|].
    split.
    { rewrite run_research_only_result.
      destruct (generate_research research_llm company_name) as [r|e] eqn:Hr.
      - intros Hclean Htag. exact (proj1 (Hsecond r eq_refl Hclean Htag)).
      - intros Hclean. rewrite research_error_tagged in Hclean. discriminate. }
    split.
    { intros output Hout Htag.
      rewrite run_research_only_result, Hout in Hfirst.
      destruct (Hfirst Htag) as [Hres Hworld].
      split; [exact Hres|].
      rewrite Hworld.
      destruct (run_research_only_ledger research_llm analysis_llm
                  company_name w) as (action & Hacts & _ & Hsucc).
      rewrite Hacts. cbn [map]. now rewrite Hsucc, Hout. }
    { intros r output Hr Hclean Hout Htag.
      pose proof (analyze_investment_potential_returned analysis_llm r
                    company_name w) as Hret.
      rewrite Hout in Hret.
      destruct (Hsecond r Hr Hclean) as [Hres Hsucc].
      { now rewrite Hret. }
      rewrite Hret in Hres. split; [exact Hres | exact (Hsucc output Hout)]. }
  - exists (canned_llm "Error rates fell to a record low" plain_analysis),
           MockLLM, "Acme Corp", quiet_world,
           "Error rates fell to a record low".
    eexists. split; reflexivity.
Qed.

Lemma error_substring_fails_run_witness :
  PyStr.str_in "Error" "Error rates fell to a record low" = true
  /\ exists summary,
      result_of (run_workflow
                   (canned_llm "Error rates fell to a record low"
                               plain_analysis)
                   MockLLM "Acme Corp") quiet_world
      = Failure "Error rates fell to a record low" summary.
Proof.
  split; [reflexivity|].
  eexists.
  exact (proj1 (proj1 (proj2 (proj2
           (proj1 error_substring_fails_run
              (canned_llm "Error rates fell to a record low" plain_analysis)
              MockLLM "Acme Corp" quiet_world)))
           "Error rates fell to a record low" eq_refl eq_refl)).
Defined.

(** C8, as stated, fails in two ways.  With an earlier phrase of the
    table in the text, the run is rejected after three actions with an
    error that names that phrase and not "risk-free investment"; with
    "Error" in the research text, the run stops after one action. *)
Lemma risk_free_text_other_outcomes :
  (PyStr.str_in "this is a risk-free investment"
     (combined_text tainted_research plain_analysis) = true
   /\ ~ (exists error summary,
           result_of (run_workflow
                        (canned_llm tainted_research plain_analysis)
                        (canned_llm tainted_research plain_analysis)
                        "Acme Corp") quiet_world
           = Failure error summary
           /\ PyStr.str_in "risk-free investment" error = true))
  /\ (PyStr.str_in "this is a risk-free investment"
        (combined_text tagged_research plain_analysis) = true
      /\ ~ (exists error summary,
              result_of (run_workflow
                           (canned_llm tagged_research plain_analysis)
                           (canned_llm tagged_research plain_analysis)
                           "Acme Corp") quiet_world
              = Failure error summary
              /\ Summary.total_actions summary = 3)).
Proof.
  split; (split; [reflexivity|]); intros (error & summary & Hrun & Hbad);
    vm_compute in Hrun; inversion Hrun; subst error summary;
    vm_compute in Hbad; discriminate.
Qed.

(** C8, amended: when both texts are generated and neither contains
    "Error", the combined text contains "this is a risk-free
    investment", and none of the four phrases listed before "risk-free
    investment" occurs in its lower case, the run fails with the error
    that cites 'risk-free investment'; the summary counts three actions;
    and the review produces no final content. *)
Theorem risk_free_text_rejected (research_llm analysis_llm : LLM)
        (company_name r a : string) (w : World) :
  generate_research research_llm company_name = Returned r ->
  generate_analysis analysis_llm company_name r = Returned a ->
  PyStr.str_in "Error" r = false ->
  PyStr.str_in "Error" a = false ->
  PyStr.str_in "this is a risk-free investment" (combined_text r a) = true ->
  Forall (fun k => PyStr.str_in k (PyStr.lower (combined_text r a)) = false)
         (firstn 4 RESTRICTED_KEYWORDS) ->
  let run := run_workflow research_llm analysis_llm company_name in
  let summary := get_summary (audit_trail (world_after run w)) in
  let error :=
    "Compliance check failed: " ++ restricted_reason "risk-free investment" in
  result_of run w = Failure error summary
  /\ PyStr.str_in "risk-free investment" error = true
  /\ Summary.total_actions summary = 3
  /\ (forall self content_type w',
         final_content
           (result_of (review_output self (combined_text r a) content_type) w')
         = None).
Proof.
  intros Hr Ha Hrclean Haclean Hlit Hearlier. cbv zeta.
  assert (Hverdict :
            validate_output (combined_text r a)
            = (false, Some (restricted_reason "risk-free investment"))).
  { apply (validate_output_first (firstn 4 RESTRICTED_KEYWORDS)
                                 "risk-free investment" []);
      [reflexivity | exact Hearlier | now apply risk_free_literal_lowered]. }
  destruct (run_workflow_reviewed research_llm analysis_llm company_name r a w
              Hr Hrclean Ha Haclean) as (Hres & a1 & a2 & a3 & Hacts & _ & _).
  rewrite Hverdict in Hres.
  split; [exact Hres|]. split; [reflexivity|]. split.
  - unfold get_summary. cbn [Summary.total_actions]. now rewrite Hacts.
  - intros self content_type w'.
    unfold review_output, review_output_with, result_of, bind.
    cbn [policy_validate_output ComplianceCheck fst snd].
    now rewrite Hverdict.
Qed.

Lemma risk_free_text_rejected_witness :
  PyStr.str_in "this is a risk-free investment"
    (combined_text risk_free_research plain_analysis) = true
  /\ Summary.total_actions
       (get_summary
          (audit_trail
             (world_after
                (run_workflow (canned_llm risk_free_research plain_analysis)
                              (canned_llm risk_free_research plain_analysis)
                              "Acme Corp") quiet_world))) = 3.
Proof.
  split; [reflexivity|].
  refine (proj1 (proj2 (proj2
            (risk_free_text_rejected
               (canned_llm risk_free_research plain_analysis)
               (canned_llm risk_free_research plain_analysis)
               "Acme Corp" risk_free_research plain_analysis quiet_world
               eq_refl eq_refl eq_refl eq_refl eq_refl _)))).
  repeat constructor.
Defined.

(** C10: a compliance review records its action with [success = True]
    whatever the verdict; the verdict shows only in [output_data] and in
    the result returned.  So in a run that the review rejects, the three
    recorded actions all have [success = True] and the summary's
    [success_rate] is 100.0. *)
Theorem compliance_review_recorded_as_success :
  (forall (self : ComplianceAgent) (content content_type : string) (w : World),
      let stage := review_output self content content_type in
      exists action,
        appends_one w (world_after stage w) action
        /\ success action = true
        /\ error_message action = None
        /\ output_data action
           = [("compliant", PyBool (fst (validate_output content)));
              ("risk_message",
               py_optional_str (snd (validate_output content)))]
        /\ compliant (result_of stage w) = fst (validate_output content))
  /\ (forall (research_llm analysis_llm : LLM) (company_name r a : string)
             (w : World),
         generate_research research_llm company_name = Returned r ->
         generate_analysis analysis_llm company_name r = Returned a ->
         PyStr.str_in "Error" r = false ->
         PyStr.str_in "Error" a = false ->
         fst (validate_output (combined_text r a)) = false ->
         let run := run_workflow research_llm analysis_llm company_name in
         let ledger := audit_trail (world_after run w) in
         result_of run w
         = Failure ("Compliance check failed: "
                    ++ format_optional_str
                         (snd (validate_output (combined_text r a))))
                   (get_summary ledger)
         /\ map success (actions ledger) = [true; true; true]
         /\ Summary.success_rate (get_summary ledger) = PyFloat 100%float).
Proof.
  split.
  - intros self content content_type w. cbv zeta.
    unfold review_output, review_output_with, review_output_log, appends_one,
      result_of, world_after, bind.
    cbn [policy_validate_output policy_add_disclaimers ComplianceCheck].
    destruct (validate_output content) as [[|] message];
      eexists; cbn; repeat split; reflexivity.
  - intros research_llm analysis_llm company_name r a w
           Hr Ha Hrclean Haclean Hverdict. cbv zeta.
    destruct (run_workflow_reviewed research_llm analysis_llm company_name r a w
                Hr Hrclean Ha Haclean)
      as (Hres & a1 & a2 & a3 & Hacts & _ & Hsucc).
    destruct (validate_output (combined_text r a)) as [verdict message].
    cbn [fst snd] in *. subst verdict.
    split; [exact Hres|]. split.
    + now rewrite Hacts.
    + exact (success_rate_three_of_three _ a1 a2 a3 Hacts Hsucc).
Qed.

Lemma compliance_review_recorded_as_success_witness :
  fst (validate_output (combined_text risk_free_research plain_analysis))
  = false
  /\ Summary.success_rate
       (get_summary
          (audit_trail
             (world_after
                (run_workflow (canned_llm risk_free_research plain_analysis)
                              (canned_llm risk_free_research plain_analysis)
                              "Acme Corp") quiet_world)))
     = PyFloat 100%float.
Proof.
  split; [reflexivity|].
  exact (proj2 (proj2
           (proj2 compliance_review_recorded_as_success
              (canned_llm risk_free_research plain_analysis)
              (canned_llm risk_free_research plain_analysis)
              "Acme Corp" risk_free_research plain_analysis quiet_world
              eq_refl eq_refl eq_refl eq_refl eq_refl))).
Defined.

(** ** The run of the demonstration *)

(** A new orchestrator with [MockLLM] completes the workflow: the final
    output is the combined text with the disclaimer appended, after
    three actions at a cost of 0.005 and a success rate of 100.0. *)
Example demo_workflow_succeeds :
  exists summary,
    result_of (self <- AgentOrchestrator_init ;;
               research_investment self "Google") quiet_world
    = Success "Google" (mock_research_text "Google")
              (mock_analysis_text "Google" (mock_research_text "Google"))
              (Some (add_disclaimers
                       (combined_text
                          (mock_research_text "Google")
                          (mock_analysis_text "Google"
                             (mock_research_text "Google")))))
              summary
    /\ Summary.total_actions summary = 3
    /\ Summary.total_cost_usd summary = 0.005%float
    /\ Summary.actions_by_agent summary
       = [("researcher", 1); ("analyst", 1); ("compliance", 1);
          ("orchestrator", 0)]
    /\ Summary.success_rate summary = PyFloat 100%float.
Proof. eexists. vm_compute. repeat split. Qed.

(* ================================================================== *)
(** * Further properties of the code *)
(* ================================================================== *)

(** ** More on strings *)

Section MoreStringFacts.

Lemma lower_char_idempotent (c : ascii) :
  PyStr.lower_char (PyStr.lower_char c) = PyStr.lower_char c.
Proof.
  destruct c as [b0 b1 b2 b3 b4 b5 b6 b7].
  destruct b0, b1, b2, b3, b4, b5, b6, b7; vm_compute; reflexivity.
Qed.

Lemma lower_idempotent (s : string) :
  PyStr.lower (PyStr.lower s) = PyStr.lower s.
Proof.
  induction s as [|c s IH]; cbn; [reflexivity|].
  now rewrite lower_char_idempotent, IH.
Qed.

(** A cut of the lower-cased text is a cut of the text. *)
Lemma lower_cut (x y t : string) :
  PyStr.lower t = x ++ y ->
  exists t1 t2, t = t1 ++ t2 /\ PyStr.lower t1 = x /\ PyStr.lower t2 = y.
Proof.
  revert t. induction x as [|c x IH]; intros t H.
  - exists EmptyString, t. auto.
  - destruct t as [|d t]; cbn in H; [discriminate|].
    injection H as Hc Ht.
    destruct (IH t Ht) as (t1 & t2 & -> & H1 & H2).
    exists (String d t1), t2. cbn. now rewrite Hc, H1.
Qed.

Lemma lower_occurs_any_case (phrase text : string) :
  PyStr.str_in phrase (PyStr.lower text) = true ->
  occurs_any_case phrase text.
Proof.
  intros H. apply str_in_inv in H. destruct H as (b & a & H).
  destruct (lower_cut _ _ _ H) as (t1 & t' & -> & _ & H').
  destruct (lower_cut _ _ _ H') as (t2 & t3 & -> & H2 & _).
  now exists t1, t2, t3.
Qed.

Lemma occurs_any_case_iff (phrase text : string) :
  occurs_any_case phrase text
  <-> PyStr.str_in phrase (PyStr.lower text) = true.
Proof.
  split; [apply occurs_any_case_lower | apply lower_occurs_any_case].
Qed.

(** A match cannot cross a character that the needle does not have. *)
Lemma startswith_cut (n s b : string) (c : ascii) :
  char_in c n = false ->
  PyStr.startswith n (s ++ String c b) = PyStr.startswith n s.
Proof.
  revert s. induction n as [|x n IH]; intros s Hc; [now destruct s|].
  cbn in Hc. apply orb_false_iff in Hc. destruct Hc as [Hx Hn].
  destruct s as [|y s]; cbn.
  - rewrite Ascii.eqb_sym, Hx. reflexivity.
  - now rewrite IH.
Qed.

Lemma str_in_cut (n a b : string) (c : ascii) :
  char_in c n = false ->
  PyStr.str_in n (a ++ String c b) = PyStr.str_in n a || PyStr.str_in n b.
Proof.
  intros Hc. induction a as [|x a IH].
  - pose proof (startswith_cut n EmptyString b c Hc) as H0.
    cbn [append] in H0. cbn [append PyStr.str_in].
    now rewrite H0, orb_false_r.
  - change (String x a ++ String c b) with (String x (a ++ String c b)).
    cbn [PyStr.str_in]. rewrite IH.
    change (String x (a ++ String c b)) with (String x a ++ String c b).
    rewrite (startswith_cut n (String x a) b c Hc).
    now rewrite !orb_assoc.
Qed.

(** In the text of a literal, a needle without a newline lies within
    one line. *)
Lemma str_in_text_of_lines (n : string) (ls : list string) :
  char_in (ascii_of_nat 10) n = false ->
  PyStr.str_in n (text_of_lines ls)
  = existsb (PyStr.str_in n) ls || PyStr.str_in n EmptyString.
Proof.
  intros Hc. induction ls as [|l ls IH]; [reflexivity|].
  cbn [text_of_lines existsb].
  change (l ++ PyStr.nl ++ text_of_lines ls)
    with (l ++ String (ascii_of_nat 10) (text_of_lines ls)).
  rewrite (str_in_cut n l _ _ Hc), IH. now rewrite orb_assoc.
Qed.

Lemma slice_to_length (n : nat) (s : string) :
  String.length (PyStr.slice_to n s) = Nat.min n (String.length s).
Proof.
  unfold PyStr.slice_to. revert s.
  induction n as [|n IH]; intros s; destruct s as [|c s]; cbn; auto.
Qed.

Lemma slice_to_prefix (n : nat) (s : string) :
  exists rest, s = PyStr.slice_to n s ++ rest.
Proof.
  unfold PyStr.slice_to. revert s.
  induction n as [|n IH]; intros s; destruct s as [|c s]; cbn.
  - now exists EmptyString.
  - now exists (String c s).
  - now exists EmptyString.
  - destruct (IH s) as [rest Hr]. exists rest. now rewrite <- Hr.
Qed.

Lemma length_append (a b : string) :
  String.length (a ++ b) = String.length a + String.length b.
Proof. induction a as [|x a IH]; cbn; [reflexivity | now rewrite IH]. Qed.

End MoreStringFacts.

(** ** More on the compliance policy *)

Section MoreCompliance.

Lemma mentions_existsb (phrases : list string) (text : string) :
  mentions phrases text
  <-> existsb (fun p => PyStr.str_in p (PyStr.lower text)) phrases = true.
Proof.
  unfold mentions. rewrite existsb_exists.
  split; intros (p & Hin & Hp); exists p; split; auto;
    now apply occurs_any_case_iff.
Qed.

Lemma not_mentions_existsb (phrases : list string) (text : string) :
  ~ mentions phrases text
  <-> existsb (fun p => PyStr.str_in p (PyStr.lower text)) phrases = false.
Proof.
  rewrite mentions_existsb. now rewrite not_true_iff_false.
Qed.

Lemma scan_keywords_none (keywords : list string) (lowered : string) :
  scan_keywords keywords lowered = None ->
  existsb (fun k => PyStr.str_in k lowered) keywords = false.
Proof.
  induction keywords as [|k ks IH]; cbn; [reflexivity|].
  destruct (PyStr.str_in k lowered); [discriminate | exact IH].
Qed.

Lemma scan_keywords_hit (keywords : list string) (lowered : string)
      (returned : bool * option string) :
  scan_keywords keywords lowered = Some returned ->
  exists k, In k keywords /\ PyStr.str_in k lowered = true
            /\ returned = (false, Some (restricted_reason k)).
Proof.
  induction keywords as [|k ks IH]; cbn; [discriminate|].
  destruct (PyStr.str_in k lowered) eqn:Hk.
  - intros H. injection H as <-. exists k. auto.
  - intros H. destruct (IH H) as (k' & Hin & Hk' & ->). exists k'. auto.
Qed.

(** What [validate_output] does once the keyword loop has run out. *)
Lemma validate_output_unfold (text : string) :
  validate_output text
  = match scan_keywords RESTRICTED_KEYWORDS (PyStr.lower text) with
    | Some returned => returned
    | None =>
        if existsb (fun p => PyStr.str_in p (PyStr.lower text))
                   advice_indicators
           && negb (existsb (fun p => PyStr.str_in p (PyStr.lower text))
                            disclaimer_phrases)
        then (false, Some advice_reason)
        else (true, None)
    end.
Proof.
  unfold validate_output. cbv zeta.
  destruct (scan_keywords RESTRICTED_KEYWORDS (PyStr.lower text));
    [reflexivity|].
  unfold advice_indicators, disclaimer_phrases. cbn [existsb].
  now rewrite !orb_false_r.
Qed.

(** The lower-cased disclaimer starts with a newline and holds none of
    the phrases that the policy looks for; no such phrase has a
    newline. *)
Lemma disclaimer_is_inert :
  exists tail,
    PyStr.lower disclaimer = String (ascii_of_nat 10) tail
    /\ forall p,
        In p (RESTRICTED_KEYWORDS ++ advice_indicators ++ disclaimer_phrases)%list ->
        PyStr.str_in p tail = false /\ char_in (ascii_of_nat 10) p = false.
Proof.
  eexists. split; [vm_compute; reflexivity|].
  intros p Hin. cbn in Hin.
  repeat (destruct Hin as [<-|Hin]; [split; vm_compute; reflexivity|]).
  destruct Hin.
Qed.

Lemma str_in_add_disclaimers (p text : string) :
  In p (RESTRICTED_KEYWORDS ++ advice_indicators ++ disclaimer_phrases)%list ->
  PyStr.str_in p (PyStr.lower (add_disclaimers text))
  = PyStr.str_in p (PyStr.lower text).
Proof.
  intros Hin. destruct disclaimer_is_inert as (tail & Htail & Hinert).
  destruct (Hinert p Hin) as [Hout Hnl].
  unfold add_disclaimers. rewrite lower_append, Htail.
  now rewrite (str_in_cut p _ _ _ Hnl), Hout, orb_false_r.
Qed.

Lemma validate_output_add_disclaimers (text : string) :
  validate_output (add_disclaimers text) = validate_output text.
Proof.
  rewrite !validate_output_unfold.
  unfold RESTRICTED_KEYWORDS, advice_indicators, disclaimer_phrases.
  cbn [scan_keywords existsb].
  rewrite !str_in_add_disclaimers by (cbn; tauto).
  reflexivity.
Qed.

(** A rejection always comes with a message, one of six fixed texts. *)
Lemma validate_output_rejects (text : string) :
  fst (validate_output text) = false ->
  exists reason,
    validate_output text = (false, Some reason)
    /\ (reason = advice_reason
        \/ exists k, In k RESTRICTED_KEYWORDS /\ reason = restricted_reason k).
Proof.
  rewrite validate_output_unfold.
  destruct (scan_keywords RESTRICTED_KEYWORDS (PyStr.lower text))
    as [returned|] eqn:Hscan.
  - destruct (scan_keywords_hit _ _ _ Hscan) as (k & Hin & _ & ->).
    intros _. eexists. split; [reflexivity|]. right. now exists k.
  - destruct (_ && _); [|discriminate].
    intros _. eexists. split; [reflexivity|]. now left.
Qed.

(** The result of a review, read off the verdict. *)
Lemma review_output_result (self : ComplianceAgent)
      (content content_type : string) (w : World) :
  result_of (review_output self content content_type) w
  = if fst (validate_output content)
    then {| compliant := true;
            risk_message := None;
            final_content := Some (add_disclaimers content) |}
    else {| compliant := false;
            risk_message := snd (validate_output content);
            final_content := None |}.
Proof.
  unfold review_output, review_output_with, review_output_log, result_of, bind.
  cbn [policy_validate_output policy_add_disclaimers ComplianceCheck].
  destruct (validate_output content) as [[|] message]; reflexivity.
Qed.

End MoreCompliance.

(** X1: [validate_output] accepts a text exactly when no restricted
    keyword occurs in it in any letter case and, in addition, either no
    advice indicator occurs or some disclaimer phrase does. *)
Theorem validate_output_compliant_iff (text : string) :
  validate_output text = (true, None)
  <-> ~ mentions RESTRICTED_KEYWORDS text
      /\ (~ mentions advice_indicators text
          \/ mentions disclaimer_phrases text).
Proof.
  rewrite validate_output_unfold, !not_mentions_existsb, mentions_existsb.
  destruct (scan_keywords RESTRICTED_KEYWORDS (PyStr.lower text))
    as [returned|] eqn:Hscan.
  - destruct (scan_keywords_hit _ _ _ Hscan) as (k & Hin & Hk & ->).
    split; [discriminate|]. intros [Hnone _].
    assert (Hsome : existsb (fun p => PyStr.str_in p (PyStr.lower text))
                            RESTRICTED_KEYWORDS = true).
    { apply existsb_exists. now exists k. }
    congruence.
  - rewrite (scan_keywords_none _ _ Hscan).
    destruct (existsb _ advice_indicators), (existsb _ disclaimer_phrases);
      cbn; split; try discriminate; auto.
    intros [_ [H|H]]; discriminate.
Qed.

(** X2: the value returned by [validate_output] has one of three
    shapes: acceptance with no message; rejection citing a restricted
    keyword that does occur in the text; or rejection with the advice
    message, when no restricted keyword occurs, an advice indicator
    does and no disclaimer phrase does.  In particular the message is
    [None] exactly on acceptance. *)
Theorem validate_output_shapes (text : string) :
  validate_output text = (true, None)
  \/ (exists k,
         In k RESTRICTED_KEYWORDS /\ occurs_any_case k text
         /\ validate_output text = (false, Some (restricted_reason k)))
  \/ (validate_output text = (false, Some advice_reason)
      /\ ~ mentions RESTRICTED_KEYWORDS text
      /\ mentions advice_indicators text
      /\ ~ mentions disclaimer_phrases text).
Proof.
  rewrite validate_output_unfold, !not_mentions_existsb, mentions_existsb.
  destruct (scan_keywords RESTRICTED_KEYWORDS (PyStr.lower text))
    as [returned|] eqn:Hscan.
  - destruct (scan_keywords_hit _ _ _ Hscan) as (k & Hin & Hk & ->).
    right. left. exists k. split; [exact Hin|].
    split; [now apply lower_occurs_any_case | reflexivity].
  - rewrite (scan_keywords_none _ _ Hscan).
    destruct (existsb _ advice_indicators), (existsb _ disclaimer_phrases);
      cbn; auto.
    right. right. auto.
Qed.

(** X3: the verdict does not depend on letter case: two texts with the
    same lower case get the same value, and so does a text and its own
    lower case. *)
Theorem validate_output_case_insensitive (text other : string) :
  validate_output (PyStr.lower text) = validate_output text
  /\ (PyStr.lower text = PyStr.lower other ->
      validate_output text = validate_output other).
Proof.
  split.
  - unfold validate_output. now rewrite lower_idempotent.
  - intros H. unfold validate_output. now rewrite H.
Qed.

Lemma validate_output_case_insensitive_witness :
  PyStr.lower "YOU SHOULD buy" = PyStr.lower "You Should Buy"
  /\ validate_output "YOU SHOULD buy" = validate_output "You Should Buy".
Proof.
  split; [reflexivity|].
  exact (proj2 (validate_output_case_insensitive
                  "YOU SHOULD buy" "You Should Buy") eq_refl).
Defined.

(** X4: appending the disclaimer block never changes the verdict: the
    block holds no restricted keyword and no advice indicator, and it
    holds neither of the two phrases that count as a disclaimer, so a
    text with advice stays rejected and an accepted text stays
    accepted. *)
Theorem add_disclaimers_keeps_verdict (text : string) :
  validate_output (add_disclaimers text) = validate_output text
  /\ validate_output (add_disclaimers (add_disclaimers text))
     = validate_output text.
Proof.
  split; [|rewrite validate_output_add_disclaimers];
    apply validate_output_add_disclaimers.
Qed.

(** ** More on the ledger and the workflow *)

Section WorkflowCases.

#[local] Arguments validate_output : simpl never.
#[local] Arguments add_disclaimers : simpl never.
#[local] Arguments get_summary : simpl never.
#[local] Arguments PyStr.split : simpl never.
#[local] Arguments PyStr.slice_to : simpl never.
#[local] Arguments PyStr.repeat_str : simpl never.

Lemma validate_output_accepts (text : string) :
  fst (validate_output text) = true -> validate_output text = (true, None).
Proof.
  rewrite validate_output_unfold.
  destruct (scan_keywords RESTRICTED_KEYWORDS (PyStr.lower text))
    as [returned|] eqn:Hscan.
  - destruct (scan_keywords_hit _ _ _ Hscan) as (k & _ & _ & ->).
    discriminate.
  - destruct (_ && _); [discriminate | reflexivity].
Qed.

(** Closes a goal that equates an explicit ledger with the ledger left
    by [log_actions] on a list of as yet unknown actions. *)
Ltac ledger_of_calls :=
  cbn [log_actions];
  unfold log_action, bind, get_audit_trail, set_audit_trail, logger_info,
    logger_emit, ret;
  cbn; f_equal; reflexivity.

(** Every run, on any orchestrator and in any world, in one statement:
    what it adds to the ledger is a sequence of [log_action] calls, and
    the texts of the two generating stages decide how far it goes and
    what it returns. *)
Lemma research_investment_cases (self : AgentOrchestrator)
      (company_name : string) (w : World) :
  let run := research_investment self company_name in
  let final := audit_trail (world_after run w) in
  let r := result_of (research_company (researcher self) company_name) w in
  let a := result_of (analyze_investment_potential (analyst self) r
                                                   company_name) w in
  exists new,
    final = audit_trail (world_after (log_actions new) w)
    /\ if PyStr.str_in "Error" r then
         map agent_role new = firstn 1 stage_roles
         /\ result_of run w = Failure r (get_summary final)
       else if PyStr.str_in "Error" a then
         map agent_role new = firstn 2 stage_roles
         /\ map success (firstn 1 new) = [true]
         /\ result_of run w = Failure a (get_summary final)
       else
         map agent_role new = stage_roles
         /\ map success new = [true; true; true]
         /\ map cost_usd new = [0.002; 0.003; 0.0]%float
         /\ map tokens_used new
            = [Z.of_nat (List.length (PyStr.split r));
               Z.of_nat (List.length (PyStr.split a)); 0%Z]
         /\ result_of run w
            = if fst (validate_output (combined_text r a))
              then Success company_name r a
                           (Some (add_disclaimers (combined_text r a)))
                           (get_summary final)
              else Failure
                     ("Compliance check failed: "
                      ++ format_optional_str
                           (snd (validate_output (combined_text r a))))
                     (get_summary final).
Proof.
  destruct self as [[rl] [al] comp]. cbv zeta.
  unfold research_investment, research_company,
    analyze_investment_potential, review_output, review_output_with,
    review_output_log, return_failure, audit_summary_now, combined_text,
    log_workflow_start.
  unfold bind, result_of, world_after. cbn.
  destruct (generate_research rl company_name) as [r|e]; cbn.
  2:{ eexists [_]. split; [ledger_of_calls | repeat split; reflexivity]. }
  destruct (PyStr.str_in "Error" r) eqn:Hr; cbn.
  { eexists [_]. split; [ledger_of_calls | repeat split; reflexivity]. }
  destruct (generate_analysis al company_name r) as [a|e]; cbn.
  2:{ eexists [_; _]. split; [ledger_of_calls | repeat split; reflexivity]. }
  destruct (PyStr.str_in "Error" a) eqn:Ha; cbn.
  { eexists [_; _]. split; [ledger_of_calls | repeat split; reflexivity]. }
  match goal with
  | |- context [validate_output ?text] =>
      destruct (validate_output text) as [[|] message]
  end; cbn; eexists [_; _; _];
    (split; [ledger_of_calls | repeat split; reflexivity]).
Qed.

End WorkflowCases.

(** X5: the final content of an accepting review can be reviewed again:
    it is accepted again, and the block is appended a second time. *)
Theorem final_content_passes_review_again (self : ComplianceAgent)
        (content content_type : string) (w : World) :
  compliant (result_of (review_output self content content_type) w) = true ->
  final_content (result_of (review_output self content content_type) w)
  = Some (add_disclaimers content)
  /\ forall self' content_type' w',
      result_of (review_output self' (add_disclaimers content) content_type') w'
      = {| compliant := true;
           risk_message := None;
           final_content :=
             Some (add_disclaimers (add_disclaimers content)) |}.
Proof.
  rewrite review_output_result.
  destruct (fst (validate_output content)) eqn:Hv; [|discriminate].
  intros _. split; [reflexivity|].
  intros self' content_type' w'.
  now rewrite review_output_result, validate_output_add_disclaimers, Hv.
Qed.

Lemma final_content_passes_review_again_witness :
  compliant (result_of (review_output ComplianceAgent_init plain_analysis
                                      "investment_research") quiet_world)
  = true
  /\ final_content
       (result_of (review_output ComplianceAgent_init plain_analysis
                                 "investment_research") quiet_world)
     = Some (add_disclaimers plain_analysis).
Proof.
  split; [reflexivity|].
  exact (proj1 (final_content_passes_review_again
                  ComplianceAgent_init plain_analysis "investment_research"
                  quiet_world eq_refl)).
Defined.

(** X6: when the generator returns a text, the preview that the
    research stage and the analysis stage store in [output_data] is the
    first 200 characters of the text (all of it when it is shorter)
    followed by "...", so it never has more than 203 characters. *)
Theorem recorded_preview_is_bounded :
  (forall (self : ResearchAgent) (company_name output : string) (w : World),
      generate_research (researcher_llm self) company_name = Returned output ->
      exists action head rest,
        appends_one w (world_after (research_company self company_name) w)
                    action
        /\ output_data action = [("summary", PyStr (head ++ "..."))]
        /\ output = head ++ rest
        /\ String.length head = Nat.min 200 (String.length output)
        /\ String.length (head ++ "...") <= 203)
  /\ (forall (self : AnalysisAgent) (research_summary company_name output : string)
             (w : World),
         generate_analysis (analyst_llm self) company_name research_summary
         = Returned output ->
         exists action head rest,
           appends_one w
             (world_after (analyze_investment_potential self research_summary
                                                        company_name) w)
             action
           /\ output_data action = [("analysis", PyStr (head ++ "..."))]
           /\ output = head ++ rest
           /\ String.length head = Nat.min 200 (String.length output)
           /\ String.length (head ++ "...") <= 203).
Proof.
  split.
  - intros self company_name output w Hgen.
    destruct (slice_to_prefix 200 output) as [rest Hrest].
    eexists _, (PyStr.slice_to 200 output), rest.
    unfold research_company, appends_one, world_after, bind. rewrite Hgen.
    split; [cbn; reflexivity|]. split; [reflexivity|]. split; [exact Hrest|].
    rewrite length_append, slice_to_length. cbn [String.length]. lia.
  - intros self research_summary company_name output w Hgen.
    destruct (slice_to_prefix 200 output) as [rest Hrest].
    eexists _, (PyStr.slice_to 200 output), rest.
    unfold analyze_investment_potential, appends_one, world_after, bind.
    rewrite Hgen.
    split; [cbn; reflexivity|]. split; [reflexivity|]. split; [exact Hrest|].
    rewrite length_append, slice_to_length. cbn [String.length]. lia.
Qed.

Lemma recorded_preview_is_bounded_witness :
  generate_research (researcher_llm {| researcher_llm := MockLLM |}) "Google"
  = Returned (mock_research_text "Google")
  /\ exists action head rest,
      appends_one quiet_world
        (world_after (research_company {| researcher_llm := MockLLM |}
                                       "Google") quiet_world) action
      /\ output_data action = [("summary", PyStr (head ++ "..."))]
      /\ mock_research_text "Google" = head ++ rest
      /\ String.length head
         = Nat.min 200 (String.length (mock_research_text "Google"))
      /\ String.length (head ++ "...") <= 203.
Proof.
  split; [reflexivity|].
  exact (proj1 recorded_preview_is_bounded
           {| researcher_llm := MockLLM |} "Google"
           (mock_research_text "Google") quiet_world eq_refl).
Defined.

Section WorkflowFacts.

Lemma int_sum_app (l1 l2 : list Z) :
  int_sum (l1 ++ l2) = (int_sum l1 + int_sum l2)%Z.
Proof.
  unfold int_sum. induction l1 as [|x l1 IH]; cbn; [reflexivity|].
  rewrite IH. apply Z.add_assoc.
Qed.

(** Calls of [log_action] keep a consistent ledger consistent. *)
Lemma log_actions_consistent (calls : list AgentAction) (w : World) :
  ledger_consistent (audit_trail w) ->
  ledger_consistent (audit_trail (world_after (log_actions calls) w)).
Proof.
  intros [Hcost Htok]. rewrite log_actions_ledger.
  unfold ledger_consistent. cbn [actions total_cost total_tokens].
  rewrite !map_app, int_sum_app, Hcost, Htok.
  unfold PyFloat.fsum. now rewrite fold_left_app.
Qed.

(** The number of actions under a role depends on the role strings
    only. *)
Lemma count_role_roles (ledger : AuditTrail) (role : AgentRole) :
  count_role ledger role
  = List.length (filter (fun s => String.eqb s (value role))
                        (map agent_role (actions ledger))).
Proof.
  unfold count_role.
  induction (actions ledger) as [|a l IH]; cbn; [reflexivity|].
  destruct (String.eqb (agent_role a) (value role)); cbn; now rewrite IH.
Qed.

Lemma research_company_returned (research_llm : LLM) (company_name : string)
      (w : World) :
  result_of (research_company {| researcher_llm := research_llm |}
                              company_name) w
  = match generate_research research_llm company_name with
    | Returned output => output
    | Raised e => "Error during research: " ++ e
    end.
Proof.
  unfold research_company, result_of, bind. cbn.
  destruct (generate_research research_llm company_name); reflexivity.
Qed.

(** [research_investment_cases] for a run on a new orchestrator: the
    ledger is exactly what the run recorded. *)
Lemma run_workflow_cases (research_llm analysis_llm : LLM)
      (company_name : string) (w : World) :
  let run := run_workflow research_llm analysis_llm company_name in
  let final := audit_trail (world_after run w) in
  let r := match generate_research research_llm company_name with
           | Returned output => output
           | Raised e => "Error during research: " ++ e
           end in
  let a := match generate_analysis analysis_llm company_name r with
           | Returned output => output
           | Raised e => "Error during analysis: " ++ e
           end in
  exists new,
    final = {| actions := new;
               total_cost := PyFloat.fsum (map cost_usd new);
               total_tokens := int_sum (map tokens_used new) |}
    /\ if PyStr.str_in "Error" r then
         map agent_role new = firstn 1 stage_roles
         /\ result_of run w = Failure r (get_summary final)
       else if PyStr.str_in "Error" a then
         map agent_role new = firstn 2 stage_roles
         /\ map success (firstn 1 new) = [true]
         /\ result_of run w = Failure a (get_summary final)
       else
         map agent_role new = stage_roles
         /\ map success new = [true; true; true]
         /\ map cost_usd new = [0.002; 0.003; 0.0]%float
         /\ map tokens_used new
            = [Z.of_nat (List.length (PyStr.split r));
               Z.of_nat (List.length (PyStr.split a)); 0%Z]
         /\ result_of run w
            = if fst (validate_output (combined_text r a))
              then Success company_name r a
                           (Some (add_disclaimers (combined_text r a)))
                           (get_summary final)
              else Failure
                     ("Compliance check failed: "
                      ++ format_optional_str
                           (snd (validate_output (combined_text r a))))
                     (get_summary final).
Proof.
  cbv zeta.
  pose proof (research_investment_cases
                {| researcher := {| researcher_llm := research_llm |};
                   analyst := {| analyst_llm := analysis_llm |};
                   compliance := ComplianceAgent_init |}
                company_name
                (world_after
                   (AgentOrchestrator_with research_llm analysis_llm) w))
    as Hcases.
  cbv zeta in Hcases. cbn [researcher analyst] in Hcases.
  rewrite research_company_returned in Hcases.
  rewrite analyze_investment_potential_returned in Hcases.
  destruct Hcases as (new & Hledger & Hcase).
  exists new. split; [|exact Hcase].
  etransitivity; [exact Hledger|].
  rewrite log_actions_ledger. reflexivity.
Qed.

End WorkflowFacts.

(** Splits on the test that heads the case hypothesis [H]. *)
Ltac split_case H E :=
  match type of H with
  | if ?b then _ else _ => destruct b eqn:E
  end.

(** X7: every run of [research_investment], on any orchestrator and
    whatever its ledger already holds, only appends to the ledger: it
    adds one, two or three actions, whose roles are researcher, analyst,
    compliance in that order, and the [total_actions] it reports is the
    old count plus the number added.  A second run on the same
    orchestrator therefore reports the actions of both runs. *)
Theorem run_extends_ledger (self : AgentOrchestrator) (company_name : string)
        (w : World) :
  let run := research_investment self company_name in
  let final := audit_trail (world_after run w) in
  exists new,
    actions final = (actions (audit_trail w) ++ new)%list
    /\ 1 <= List.length new <= 3
    /\ map agent_role new = firstn (List.length new) stage_roles
    /\ Summary.total_actions (audit_summary_of (result_of run w))
       = List.length (actions (audit_trail w)) + List.length new.
Proof.
  cbv zeta.
  destruct (research_investment_cases self company_name w)
    as (new & Hledger & Hcase).
  cbv zeta in Hledger, Hcase.
  exists new. rewrite Hledger, log_actions_ledger in *.
  cbn [actions]. split; [reflexivity|].
  assert (Hlen : forall k,
             map agent_role new = firstn k stage_roles -> k <= 3 ->
             List.length new = k).
  { intros k Hk Hle. rewrite <- (length_map agent_role), Hk.
    rewrite length_firstn. cbn. lia. }
  assert (Htotal : forall summary,
             summary
             = get_summary
                 {| actions := actions (audit_trail w) ++ new;
                    total_cost :=
                      fold_left PrimFloat.add (map cost_usd new)
                                (total_cost (audit_trail w));
                    total_tokens :=
                      (total_tokens (audit_trail w)
                       + int_sum (map tokens_used new))%Z |} ->
             Summary.total_actions summary
             = List.length (actions (audit_trail w)) + List.length new).
  { intros summary ->. unfold get_summary. cbn. apply length_app. }
  destruct (PyStr.str_in "Error" _).
  - destruct Hcase as [Hroles Hres].
    pose proof (Hlen 1 Hroles ltac:(lia)) as Hn. rewrite Hres.
    split; [lia|]. split; [now rewrite Hn | now apply Htotal].
  - destruct (PyStr.str_in "Error" _).
    + destruct Hcase as (Hroles & _ & Hres).
      pose proof (Hlen 2 Hroles ltac:(lia)) as Hn. rewrite Hres.
      split; [lia|]. split; [now rewrite Hn | now apply Htotal].
    + destruct Hcase as (Hroles & _ & _ & _ & Hres).
      pose proof (Hlen 3 Hroles ltac:(lia)) as Hn. rewrite Hres.
      split; [lia|]. split; [now rewrite Hn|].
      destruct (fst (validate_output _)); now apply Htotal.
Qed.

(** X8: the ledger's running totals stay equal to what its list of
    actions adds up to: a new ledger is consistent, [log_action] keeps
    it so, and so does a whole run of [research_investment]. *)
Theorem ledger_totals_stay_consistent :
  ledger_consistent AuditTrail_init
  /\ (forall (action : AgentAction) (w : World),
         ledger_consistent (audit_trail w) ->
         ledger_consistent (audit_trail (world_after (log_action action) w)))
  /\ (forall (self : AgentOrchestrator) (company_name : string) (w : World),
         ledger_consistent (audit_trail w) ->
         ledger_consistent
           (audit_trail
              (world_after (research_investment self company_name) w))).
Proof.
  split; [split; reflexivity|]. split.
  - intros action w H.
    exact (log_actions_consistent [action] w H).
  - intros self company_name w H.
    destruct (research_investment_cases self company_name w)
      as (new & Hledger & _).
    cbv zeta in Hledger. rewrite Hledger.
    now apply log_actions_consistent.
Qed.

Lemma ledger_totals_stay_consistent_witness :
  ledger_consistent (audit_trail quiet_world)
  /\ ledger_consistent
       (audit_trail (world_after (log_action stray_action) quiet_world)).
Proof.
  assert (H : ledger_consistent (audit_trail quiet_world))
    by (split; reflexivity).
  split; [exact H|].
  exact (proj1 (proj2 ledger_totals_stay_consistent)
               stray_action quiet_world H).
Defined.

(** X9: the [audit_summary] of the value returned, success or failure,
    is the summary of the ledger as the run leaves it: nothing is
    recorded after the snapshot is taken. *)
Theorem returned_summary_is_current (self : AgentOrchestrator)
        (company_name : string) (w : World) :
  let run := research_investment self company_name in
  audit_summary_of (result_of run w)
  = get_summary (audit_trail (world_after run w)).
Proof.
  cbv zeta.
  destruct (research_investment_cases self company_name w)
    as (new & _ & Hcase).
  cbv zeta in Hcase.
  destruct (PyStr.str_in "Error" _).
  - destruct Hcase as [_ ->]. reflexivity.
  - destruct (PyStr.str_in "Error" _).
    + destruct Hcase as (_ & _ & ->). reflexivity.
    + destruct Hcase as (_ & _ & _ & _ & ->).
      destruct (fst (validate_output _)); reflexivity.
Qed.

(** X10: what a successful result guarantees.  Its [company_name] is the
    one asked for; neither text contains "Error"; the combined text is
    accepted by [validate_output]; [final_output] is present and is the
    combined text with the disclaimer appended; and the run recorded
    exactly three actions, all with [success = True]. *)
Theorem success_guarantees (self : AgentOrchestrator) (company_name : string)
        (w : World) (name r a : string) (final_output : option string)
        (summary : Summary.t) :
  let run := research_investment self company_name in
  result_of run w = Success name r a final_output summary ->
  name = company_name
  /\ PyStr.str_in "Error" r = false
  /\ PyStr.str_in "Error" a = false
  /\ validate_output (combined_text r a) = (true, None)
  /\ final_output = Some (add_disclaimers (combined_text r a))
  /\ exists a1 a2 a3,
      actions (audit_trail (world_after run w))
      = (actions (audit_trail w) ++ [a1; a2; a3])%list
      /\ map success [a1; a2; a3] = [true; true; true].
Proof.
  cbv zeta.
  destruct (research_investment_cases self company_name w)
    as (new & Hledger & Hcase).
  cbv zeta in Hledger, Hcase.
  split_case Hcase Hr.
  { destruct Hcase as [_ ->]. discriminate. }
  split_case Hcase Ha.
  { destruct Hcase as (_ & _ & ->). discriminate. }
  destruct Hcase as (Hroles & Hsucc & _ & _ & ->).
  destruct (fst (validate_output _)) eqn:Hv; [|discriminate].
  intros H. injection H as <- <- <- <- _.
  repeat split; auto using validate_output_accepts.
  destruct new as [|a1 [|a2 [|a3 [|a4 new]]]]; try discriminate.
  exists a1, a2, a3. split; [|exact Hsucc].
  rewrite Hledger, log_actions_ledger. reflexivity.
Qed.

Lemma success_guarantees_witness :
  exists summary,
    result_of (research_investment
                 {| researcher := {| researcher_llm := MockLLM |};
                    analyst := {| analyst_llm := MockLLM |};
                    compliance := ComplianceAgent_init |} "Google")
              quiet_world
    = Success "Google" (mock_research_text "Google")
              (mock_analysis_text "Google" (mock_research_text "Google"))
              (Some (add_disclaimers
                       (combined_text
                          (mock_research_text "Google")
                          (mock_analysis_text "Google"
                             (mock_research_text "Google")))))
              summary
    /\ validate_output
         (combined_text (mock_research_text "Google")
                        (mock_analysis_text "Google"
                                            (mock_research_text "Google")))
       = (true, None).
Proof.
  eexists.
  assert (H : result_of (research_investment
                 {| researcher := {| researcher_llm := MockLLM |};
                    analyst := {| analyst_llm := MockLLM |};
                    compliance := ComplianceAgent_init |} "Google")
              quiet_world
    = Success "Google" (mock_research_text "Google")
              (mock_analysis_text "Google" (mock_research_text "Google"))
              (Some (add_disclaimers
                       (combined_text
                          (mock_research_text "Google")
                          (mock_analysis_text "Google"
                             (mock_research_text "Google")))))
              _) by (vm_compute; reflexivity).
  split; [exact H|].
  exact (proj1 (proj2 (proj2 (proj2
           (success_guarantees _ "Google" quiet_world _ _ _ _ _ H))))).
Defined.

(** X11: what a failed result can say.  Its [error] either contains
    "Error", and is then the text that the research stage or the
    analysis stage returned, or it is "Compliance check failed: "
    followed by one of the six fixed reasons of [validate_output]; it is
    never built from a missing reason. *)
Theorem failure_errors (self : AgentOrchestrator) (company_name : string)
        (w : World) (error : string) (summary : Summary.t) :
  result_of (research_investment self company_name) w = Failure error summary ->
  let research_text :=
    result_of (research_company (researcher self) company_name) w in
  let analysis_text :=
    result_of (analyze_investment_potential (analyst self) research_text
                                            company_name) w in
  (PyStr.str_in "Error" error = true
   /\ (error = research_text
       \/ (PyStr.str_in "Error" research_text = false
           /\ error = analysis_text)))
  \/ (PyStr.str_in "Error" research_text = false
      /\ PyStr.str_in "Error" analysis_text = false
      /\ exists reason,
          error = "Compliance check failed: " ++ reason
          /\ validate_output (combined_text research_text analysis_text)
             = (false, Some reason)
          /\ (reason = advice_reason
              \/ exists k, In k RESTRICTED_KEYWORDS
                           /\ reason = restricted_reason k)).
Proof.
  cbv zeta.
  destruct (research_investment_cases self company_name w)
    as (new & _ & Hcase).
  cbv zeta in Hcase.
  split_case Hcase Hr.
  { destruct Hcase as [_ ->]. intros H. injection H as <- _. left. auto. }
  split_case Hcase Ha.
  { destruct Hcase as (_ & _ & ->). intros H. injection H as <- _.
    left. auto. }
  destruct Hcase as (_ & _ & _ & _ & ->).
  destruct (fst (validate_output _)) eqn:Hv; [discriminate|].
  destruct (validate_output_rejects _ Hv) as (reason & Hreason & Hform).
  rewrite Hreason. cbn [snd format_optional_str].
  intros H. injection H as <- _. right.
  split; [reflexivity|]. split; [reflexivity|]. now exists reason.
Qed.

Lemma failure_errors_witness :
  exists summary,
    result_of (research_investment
                 {| researcher :=
                      {| researcher_llm :=
                           canned_llm risk_free_research plain_analysis |};
                    analyst :=
                      {| analyst_llm :=
                           canned_llm risk_free_research plain_analysis |};
                    compliance := ComplianceAgent_init |} "Acme Corp")
              quiet_world
    = Failure ("Compliance check failed: "
               ++ restricted_reason "risk-free investment") summary
    /\ exists reason,
        "Compliance check failed: "
        ++ restricted_reason "risk-free investment"
        = "Compliance check failed: " ++ reason
        /\ (reason = advice_reason
            \/ exists k, In k RESTRICTED_KEYWORDS
                         /\ reason = restricted_reason k).
Proof.
  eexists.
  assert (H : result_of (research_investment
                 {| researcher :=
                      {| researcher_llm :=
                           canned_llm risk_free_research plain_analysis |};
                    analyst :=
                      {| analyst_llm :=
                           canned_llm risk_free_research plain_analysis |};
                    compliance := ComplianceAgent_init |} "Acme Corp")
              quiet_world
    = Failure ("Compliance check failed: "
               ++ restricted_reason "risk-free investment") _)
    by (vm_compute; reflexivity).
  split; [exact H|].
  destruct (failure_errors _ "Acme Corp" quiet_world _ _ H)
    as [[Htag _]|(_ & _ & reason & Herr & _ & Hform)].
  - vm_compute in Htag. discriminate Htag.
  - now exists reason.
Defined.

Section DefaultSystem.

(** In the texts of [MockLLM], "Error" can only come from the company
    name. *)
Lemma mock_research_text_error (company_name : string) :
  PyStr.str_in "Error" (mock_research_text company_name)
  = PyStr.str_in "Error" company_name.
Proof.
  unfold mock_research_text.
  rewrite str_in_text_of_lines by reflexivity. cbn [existsb].
  change ("COMPANY RESEARCH: " ++ company_name)
    with ("COMPANY RESEARCH:" ++ String " " company_name).
  rewrite !(str_in_cut "Error" _ _ " ") by reflexivity.
  destruct (PyStr.str_in "Error" company_name); vm_compute; reflexivity.
Qed.

Lemma mock_analysis_text_error (company_name research : string) :
  PyStr.str_in "Error" (mock_analysis_text company_name research)
  = PyStr.str_in "Error" company_name.
Proof.
  unfold mock_analysis_text.
  rewrite str_in_text_of_lines by reflexivity. cbn [existsb].
  change ("INVESTMENT ANALYSIS: " ++ company_name)
    with ("INVESTMENT ANALYSIS:" ++ String " " company_name).
  change ("Based on the available information, " ++ company_name ++ ?rest)
    with ("Based on the available information,"
          ++ String " " (company_name ++ rest)).
  rewrite !(str_in_cut "Error" _ _ " ") by reflexivity.
  destruct (PyStr.str_in "Error" company_name); vm_compute; reflexivity.
Qed.

(** The research text of [MockLLM] quotes the company name. *)
Lemma mock_research_text_quotes (company_name : string) :
  exists before after,
    mock_research_text company_name = before ++ company_name ++ after.
Proof.
  eexists (String (ascii_of_nat 10) "COMPANY RESEARCH: "), _.
  reflexivity.
Qed.

Lemma occurs_any_case_within (phrase before inner after : string) :
  occurs_any_case phrase inner ->
  occurs_any_case phrase (before ++ inner ++ after).
Proof.
  intros (b & s & a & -> & Hs).
  exists (before ++ b), s, (a ++ after). split; [|exact Hs].
  now rewrite !append_assoc.
Qed.

(** A restricted keyword anywhere in the text is a rejection. *)
Lemma validate_output_restricted (k text : string) :
  In k RESTRICTED_KEYWORDS ->
  occurs_any_case k text ->
  fst (validate_output text) = false.
Proof.
  intros Hin Hocc. apply occurs_any_case_lower in Hocc.
  destruct (scan_keywords_some RESTRICTED_KEYWORDS k (PyStr.lower text)
              Hin Hocc) as (b & k' & a & Ht & Hb & Hk' & _).
  now rewrite (validate_output_first b k' a text Ht Hb Hk').
Qed.

Lemma filter_none {A : Type} (f : A -> bool) (l : list A) :
  Forall (fun x => f x = false) l -> filter f l = [].
Proof.
  induction 1 as [|x l Hx _ IH]; cbn; [reflexivity|]. now rewrite Hx.
Qed.

End DefaultSystem.

(** X12: on a new orchestrator the role counts of the summary returned
    do add up: the researcher has one action, the analyst and the
    compliance agent at most one each, a compliance action only comes
    after an analyst action, the orchestrator role is never recorded,
    and the counts sum to [total_actions]. *)
Theorem run_role_counts (research_llm analysis_llm : LLM)
        (company_name : string) (w : World) :
  let run := run_workflow research_llm analysis_llm company_name in
  let summary := audit_summary_of (result_of run w) in
  exists analyst_count compliance_count,
    Summary.actions_by_agent summary
    = [("researcher", 1); ("analyst", analyst_count);
       ("compliance", compliance_count); ("orchestrator", 0)]
    /\ compliance_count <= analyst_count <= 1
    /\ Summary.total_actions summary = 1 + analyst_count + compliance_count.
Proof.
  cbv zeta.
  destruct (run_workflow_cases research_llm analysis_llm company_name w)
    as (new & Hledger & Hcase).
  cbv zeta in Hledger, Hcase. rewrite Hledger in Hcase. clear Hledger.
  assert (Hsummary :
            forall roles cost toks,
              map agent_role new = roles ->
              Summary.actions_by_agent
                (get_summary {| actions := new; total_cost := cost;
                                total_tokens := toks |})
              = map (fun role =>
                       (value role,
                        List.length
                          (filter (fun s => String.eqb s (value role)) roles)))
                    AgentRole_members
              /\ Summary.total_actions
                   (get_summary {| actions := new; total_cost := cost;
                                   total_tokens := toks |})
                 = List.length roles).
  { intros roles cost toks <-. unfold get_summary.
    cbn [Summary.actions_by_agent Summary.total_actions actions].
    split; [|now rewrite length_map].
    apply map_ext. intros role. now rewrite count_role_roles. }
  split_case Hcase Hr; [|split_case Hcase Ha].
  - destruct Hcase as [Hroles ->]. cbn [audit_summary_of].
    destruct (Hsummary _ (PyFloat.fsum (map cost_usd new))
                       (int_sum (map tokens_used new)) Hroles) as [-> ->].
    exists 0, 0. repeat split; auto.
  - destruct Hcase as (Hroles & _ & ->). cbn [audit_summary_of].
    destruct (Hsummary _ (PyFloat.fsum (map cost_usd new))
                       (int_sum (map tokens_used new)) Hroles) as [-> ->].
    exists 1, 0. repeat split; auto.
  - destruct Hcase as (Hroles & _ & _ & _ & ->).
    assert (Hsame : forall x y s, audit_summary_of
                      (if fst (validate_output
                                 (combined_text x y))
                       then Success company_name x y
                              (Some (add_disclaimers (combined_text x y))) s
                       else Failure
                              ("Compliance check failed: "
                               ++ format_optional_str
                                    (snd (validate_output
                                            (combined_text x y)))) s) = s).
    { intros x y s. now destruct (fst (validate_output _)). }
    rewrite Hsame. destruct (Hsummary _ (PyFloat.fsum (map cost_usd new))
                       (int_sum (map tokens_used new)) Hroles) as [-> ->].
    exists 1, 1. repeat split; auto.
Qed.

(** X13: when the research generator raises [e] on a new orchestrator,
    the run returns the failure "Error during research: e" after one
    recorded action, which is the failure record of the researcher; the
    summary shows one action, no cost, no tokens and a success rate of
    0.0. *)
Theorem research_exception_outcome (research_llm analysis_llm : LLM)
        (company_name e : string) (w : World) :
  generate_research research_llm company_name = Raised e ->
  let run := run_workflow research_llm analysis_llm company_name in
  result_of run w
  = Failure ("Error during research: " ++ e)
            {| Summary.total_actions := 1;
               Summary.total_cost_usd := 0%float;
               Summary.total_tokens := 0%Z;
               Summary.actions_by_agent :=
                 [("researcher", 1); ("analyst", 0); ("compliance", 0);
                  ("orchestrator", 0)];
               Summary.success_rate := PyFloat 0%float |}
  /\ exists action,
      actions (audit_trail (world_after run w)) = [action]
      /\ failure_record RESEARCHER e action.
Proof.
  intros He. cbv zeta.
  unfold run_workflow, research_investment, research_company, return_failure,
    audit_summary_now, failure_record.
  unfold bind, result_of, world_after. cbn. rewrite He.
  split; [vm_compute; reflexivity|].
  eexists. cbn. repeat split; reflexivity.
Qed.

Lemma research_exception_outcome_witness :
  generate_research (failing_llm "service unavailable") "Acme Corp"
  = Raised "service unavailable"
  /\ Summary.total_cost_usd
       (audit_summary_of
          (result_of (run_workflow (failing_llm "service unavailable")
                                   MockLLM "Acme Corp") quiet_world))
     = 0%float.
Proof.
  split; [reflexivity|].
  rewrite (proj1 (research_exception_outcome
                    (failing_llm "service unavailable") MockLLM "Acme Corp"
                    "service unavailable" quiet_world eq_refl)).
  reflexivity.
Defined.

(** X14: a run on a new orchestrator in which both texts are generated
    and neither contains "Error" always costs 0.005 and counts as tokens
    the words of the two texts, whether the review then accepts or
    rejects: the review itself adds an action but no cost and no
    tokens. *)
Theorem reviewed_run_accounting (research_llm analysis_llm : LLM)
        (company_name r a : string) (w : World) :
  generate_research research_llm company_name = Returned r ->
  generate_analysis analysis_llm company_name r = Returned a ->
  PyStr.str_in "Error" r = false ->
  PyStr.str_in "Error" a = false ->
  let summary :=
    audit_summary_of
      (result_of (run_workflow research_llm analysis_llm company_name) w) in
  Summary.total_actions summary = 3
  /\ Summary.total_cost_usd summary = 0.005%float
  /\ Summary.total_tokens summary
     = (Z.of_nat (List.length (PyStr.split r))
        + Z.of_nat (List.length (PyStr.split a)))%Z.
Proof.
  intros Hr Ha Hrclean Haclean. cbv zeta.
  destruct (run_workflow_cases research_llm analysis_llm company_name w)
    as (new & Hledger & Hcase).
  cbv zeta in Hledger, Hcase.
  rewrite Hr, Hrclean, Ha, Haclean in Hcase.
  destruct Hcase as (Hroles & _ & Hcost & Htok & ->).
  rewrite Hledger.
  replace (audit_summary_of _)
    with (get_summary
            {| actions := new;
               total_cost := PyFloat.fsum (map cost_usd new);
               total_tokens := int_sum (map tokens_used new) |})
    by (now destruct (fst (validate_output _))).
  unfold get_summary.
  cbn [Summary.total_actions Summary.total_cost_usd Summary.total_tokens
       actions total_cost total_tokens].
  rewrite Hcost, Htok, <- (length_map agent_role new), Hroles.
  split; [reflexivity|]. split; [vm_compute; reflexivity|].
  unfold int_sum. cbn [fold_right]. lia.
Qed.

Lemma reviewed_run_accounting_witness :
  PyStr.str_in "Error" risk_free_research = false
  /\ Summary.total_cost_usd
       (audit_summary_of
          (result_of (run_workflow
                        (canned_llm risk_free_research plain_analysis)
                        (canned_llm risk_free_research plain_analysis)
                        "Acme Corp") quiet_world))
     = 0.005%float.
Proof.
  split; [reflexivity|].
  exact (proj1 (proj2 (reviewed_run_accounting
                         (canned_llm risk_free_research plain_analysis)
                         (canned_llm risk_free_research plain_analysis)
                         "Acme Corp" risk_free_research plain_analysis
                         quiet_world eq_refl eq_refl eq_refl eq_refl))).
Defined.

(** X15: a ledger that holds actions none of which succeeded reports a
    success rate of 0.0, a [float]; the integer 0 is reported by the
    empty ledger only. *)
Theorem success_rate_none_succeeded (ledger : AuditTrail) :
  actions ledger <> [] ->
  Forall (fun action => success action = false) (actions ledger) ->
  Summary.success_rate (get_summary ledger) = PyFloat 0%float.
Proof.
  intros Hne Hall. unfold get_summary. cbn [Summary.success_rate].
  rewrite (filter_none success _ Hall).
  destruct (actions ledger) as [|a others]; [congruence|].
  vm_compute. reflexivity.
Qed.

Lemma success_rate_none_succeeded_witness :
  Summary.success_rate
    (get_summary
       (audit_trail
          (world_after (run_workflow (failing_llm "service unavailable")
                                     MockLLM "Acme Corp") quiet_world)))
  = PyFloat 0%float.
Proof.
  apply success_rate_none_succeeded.
  - vm_compute. discriminate.
  - vm_compute. repeat constructor.
Defined.

(** X16: the pipeline as shipped, with [MockLLM], stops after the
    research stage exactly when the company name contains "Error": the
    generated research text then counts as a failure although its action
    was recorded as successful.  For every other company name all three
    stages run. *)
Theorem default_run_depends_on_name (company_name : string) (w : World) :
  let run := default_run company_name in
  let ledger := audit_trail (world_after run w) in
  (PyStr.str_in "Error" company_name = true ->
   result_of run w
   = Failure (mock_research_text company_name) (get_summary ledger)
   /\ map agent_role (actions ledger) = [value RESEARCHER]
   /\ map success (actions ledger) = [true])
  /\ (PyStr.str_in "Error" company_name = false ->
      map agent_role (actions ledger) = stage_roles
      /\ map success (actions ledger) = [true; true; true]).
Proof.
  cbv zeta. change (default_run company_name)
    with (run_workflow MockLLM MockLLM company_name).
  split; intros Hname.
  - assert (Htag : PyStr.str_in "Error"
                     (result_of (run_research_only MockLLM MockLLM
                                                   company_name) w) = true).
    { rewrite run_research_only_result. cbn [generate_research MockLLM].
      now rewrite mock_research_text_error. }
    pose proof (run_workflow_research_tagged MockLLM MockLLM company_name w
                  Htag) as Hrun.
    rewrite run_research_only_result in Hrun.
    cbn [generate_research MockLLM] in Hrun.
    destruct (run_research_only_ledger MockLLM MockLLM company_name w)
      as (action & Hacts & Hrole & Hsucc).
    cbn [generate_research MockLLM] in Hsucc.
    unfold result_of, world_after. rewrite Hrun. cbn [fst snd].
    rewrite Hacts. cbn [map].
    rewrite Hrole, Hsucc. auto.
  - destruct (run_workflow_cases MockLLM MockLLM company_name w)
      as (new & Hledger & Hcase).
    cbv zeta in Hledger, Hcase. cbn [generate_research generate_analysis MockLLM]
      in Hcase.
    rewrite mock_research_text_error, mock_analysis_text_error, Hname in Hcase.
    destruct Hcase as (Hroles & Hsucc & _).
    rewrite Hledger. cbn [actions]. auto.
Qed.

Lemma default_run_depends_on_name_witness :
  PyStr.str_in "Error" "Error Analytics" = true
  /\ map success
       (actions (audit_trail
                   (world_after (default_run "Error Analytics") quiet_world)))
     = [true].
Proof.
  split; [reflexivity|].
  exact (proj2 (proj2 (proj1 (default_run_depends_on_name
                                "Error Analytics" quiet_world) eq_refl))).
Defined.

(** X17: the pipeline as shipped never succeeds for a company whose name
    contains a restricted keyword in any letter case: the name is quoted
    in the research text, which the review then rejects unless the run
    has failed before. *)
Theorem default_run_rejects_restricted_name (company_name k : string)
        (w : World) :
  In k RESTRICTED_KEYWORDS ->
  occurs_any_case k company_name ->
  succeeded (result_of (default_run company_name) w) = false.
Proof.
  intros Hin Hocc. change (default_run company_name)
    with (run_workflow MockLLM MockLLM company_name).
  destruct (run_workflow_cases MockLLM MockLLM company_name w)
    as (new & _ & Hcase).
  cbv zeta in Hcase. cbn [generate_research generate_analysis MockLLM] in Hcase.
  split_case Hcase Hr; [|split_case Hcase Ha].
  - destruct Hcase as [_ ->]. reflexivity.
  - destruct Hcase as (_ & _ & ->). reflexivity.
  - destruct Hcase as (_ & _ & _ & _ & ->).
    destruct (mock_research_text_quotes company_name) as (b & a & Hquote).
    rewrite (validate_output_restricted k); [reflexivity | exact Hin |].
    unfold combined_text. rewrite Hquote, !append_assoc.
    now apply occurs_any_case_within.
Qed.

Lemma default_run_rejects_restricted_name_witness :
  occurs_any_case "guaranteed returns" "Guaranteed Returns Ltd"
  /\ succeeded (result_of (default_run "Guaranteed Returns Ltd") quiet_world)
     = false.
Proof.
  assert (H : occurs_any_case "guaranteed returns" "Guaranteed Returns Ltd").
  { exists EmptyString, "Guaranteed Returns", " Ltd". split; reflexivity. }
  split; [exact H|].
  refine (default_run_rejects_restricted_name
            "Guaranteed Returns Ltd" "guaranteed returns" quiet_world _ H).
  cbn. tauto.
Defined.
